(** * Placement eligibility dashboard ([app.py])

    The application is a Streamlit page over an SQLite store with four
    tables.  Its logic is

    - a catalog [SQL_QUERIES] of fixed report statements,
    - the statement built by the "Filter Students" page from eleven slider
      values and two checkboxes ([eligibility_query]),
    - [DatabaseManager.execute_query], which hands a statement to the
      backend and turns failures into an empty frame plus [st.error].

    Python text is embedded as [string], integers as [Z], the tables as
    lists of records, the connection cache and the messages shown on the
    page as an explicit state threaded through a small monad.  The SQL
    statements are embedded twice: verbatim as text (what Python builds)
    and as list programs (what the statement denotes on a dataset). *)

From Stdlib Require Import ZArith Lia Ascii DecimalString.
From Stdlib Require String DecimalPos DecimalZ.
From stdpp Require Import base list strings sorting gmap.

Local Open Scope Z_scope.

(** ** Python text primitives *)

(** The double quote character (code 34), which occurs inside the
    single-quoted clause texts of the f-string. *)
Definition dq : string := String "034"%char "".

(** [str(n)] for a Python [int], as an f-string placeholder formats it. *)
Definition str (n : Z) : string := NilZero.string_of_int (Z.to_int n).

(** ** The query catalog (app.py, lines 78-176) *)

Definition SQL_QUERIES : list (string * string) :=
  [ ("Total Students",
     "SELECT COUNT(*) FROM Students;");
    ("Average Age of Students",
     "SELECT AVG(age) FROM Students;");
    ("Students by Course Batch",
     "SELECT course_batch, COUNT(*) AS count FROM Students GROUP BY course_batch ORDER BY count DESC;");
    ("Average Programming Problems Solved",
     "
        SELECT AVG(P.problem_solved)
        FROM Programming P;
    ");
    ("Top 5 Students by Latest Project Score",
     "
        SELECT S.name, P.latest_project_score
        FROM Students S
        JOIN Programming P ON S.student_id = P.student_id
        ORDER BY P.latest_project_score DESC
        LIMIT 5;
    ");
    ("Average Soft Skills Score (Overall)",
     "
        SELECT AVG(
            COALESCE(communication, 0) +
            COALESCE(team_work, 0) +
            COALESCE(presentation, 0) +
            COALESCE(leadership, 0) +
            COALESCE(Critical_thinking, 0) +
            COALESCE(interpersonal_skill, 0)
        ) / 6 AS avg_soft_skills_score
        FROM SoftSkills;
    ");
    ("Students with Internship Completed",
     "
        SELECT S.name, S.course_batch
        FROM Students S
        JOIN Placements PL ON S.student_id = PL.student_id
        WHERE PL.internship_complted = 'yes';
    ");
    ("Distribution of Mock Interview Scores",
     "
        SELECT
            CASE # SQL's CASE statement allows defining categories based on score ranges
                WHEN mock_interview_score BETWEEN 0 AND 49 THEN '0-49 (Poor)'
                WHEN mock_interview_score BETWEEN 50 AND 69 THEN '50-69 (Average)'
                WHEN mock_interview_score BETWEEN 70 AND 89 THEN '70-89 (Good)'
                WHEN mock_interview_score BETWEEN 90 AND 100 THEN '90-100 (Excellent)'
                ELSE 'N/A'
            END AS score_range,
            COUNT(*) AS num_students
        FROM Placements
        GROUP BY score_range # Group results by the defined score ranges
        ORDER BY score_range;
    ");
    ("Students Ready for Placement",
     "
        SELECT S.name, S.course_batch, PL.mock_interview_score, PL.Placement_status, PL.Company_name
        FROM Students S
        JOIN Placements PL ON S.student_id = PL.student_id
        WHERE PL.Placement_status = 'Ready' OR PL.Placement_status = 'Placed';
    ");
    ("Average Placement Package by Batch",
     "
        SELECT S.course_batch, AVG(PL.placement_package) AS avg_package
        FROM Students S
        JOIN Placements PL ON S.student_id = PL.student_id
        WHERE PL.Placement_status = 'Placed'
        GROUP BY S.course_batch
        ORDER BY avg_package DESC;
    ");
    ("Students with High Mock Interview Scores and Placement Status",
     "
        SELECT
            S.name,
            S.course_batch,
            PL.mock_interview_score,
            PL.Placement_status,
            PL.Company_name
        FROM
            Students S
        JOIN
            Placements PL ON S.student_id = PL.student_id
        WHERE
            PL.Placement_status IN ('Ready', 'Placed')
        ORDER BY
            PL.mock_interview_score DESC;
    ");
    ("Student with Highest Placement Package",
     "
        SELECT
            S.name,
            S.course_batch,
            PL.Company_name,
            PL.placement_package
        FROM
            Students S
        JOIN
            Placements PL ON S.student_id = PL.student_id
        WHERE
            PL.Placement_status = 'Placed'
        ORDER BY
            PL.placement_package DESC
        LIMIT 1;
    ");
    ("Count Students by City",
     "
        SELECT city, COUNT(student_id) AS NumberOfStudents
        FROM Students
        GROUP BY city
        ORDER BY NumberOfStudents DESC;
    ") ].

(** [SQL_QUERIES[name]]; [None] stands for Python's [KeyError]. *)
Fixpoint dict_get (d : list (string * string)) (name : string) : option string :=
  match d with
  | [] => None
  | (k, v) :: d' => if decide (k = name) then Some v else dict_get d' name
  end.

(** [list(SQL_QUERIES.keys())], the menu of the "View Insights" page. *)
Definition keys (d : list (string * string)) : list string := d.*1.

(** ** The inputs of the "Filter Students" page (app.py, lines 200-217) *)

(** The eleven slider values and two checkbox values the f-string reads. *)
Record Criteria := {
  min_problem_solved : Z;
  min_assesment_completed : Z;
  min_mini_project : Z;
  min_latest_project_score : Z;
  required_certification : bool;
  min_communication : Z;
  min_team_work : Z;
  min_presentation : Z;
  min_leadership : Z;
  min_critical_thinking : Z;
  min_interpersonal_skill : Z;
  min_mock_interview_score : Z;
  required_internship : bool
}.

(** ** The statement builder (app.py, lines 225-268) *)

(** The clause texts of lines 265 and 266; their string literals are in
    double quotes. *)
Definition certification_clause : string :=
  "AND P.Certification = " +:+ dq +:+ "Yes" +:+ dq.

Definition internship_clause : string :=
  "AND PL.internship_complted = " +:+ dq +:+ "yes" +:+ dq.

(** The f-string, piece by piece: literal text, [{placeholder}] values
    formatted by [str], and the two conditional clauses. *)
Definition eligibility_query (c : Criteria) : string :=
  "
        SELECT
            S.student_id,
            S.name,
            S.age,
            S.gender,
            S.course_batch,
            S.city,
            P.problem_solved,
            P.assesment_completed,
            P.Mini_project,
            P.latest_project_score,
            P.Certification,
            SS.communication,
            SS.team_work,
            SS.presentation,
            SS.leadership,
            SS.Critical_thinking,
            SS.interpersonal_skill,
            PL.mock_interview_score,
            PL.internship_complted,
            PL.Placement_status,
            PL.Company_name,
            PL.placement_package
        FROM Students S
        JOIN Programming P ON S.student_id = P.student_id
        JOIN SoftSkills SS ON S.student_id = SS.student_id
        JOIN Placements PL ON S.student_id = PL.student_id
        WHERE
            P.problem_solved >= "
  +:+ str (min_problem_solved c)
  +:+ " AND
            P.assesment_completed >= "
  +:+ str (min_assesment_completed c)
  +:+ " AND
            P.Mini_project >= "
  +:+ str (min_mini_project c)
  +:+ " AND
            P.latest_project_score >= "
  +:+ str (min_latest_project_score c)
  +:+ " AND
            SS.communication >= "
  +:+ str (min_communication c)
  +:+ " AND
            SS.team_work >= "
  +:+ str (min_team_work c)
  +:+ " AND
            SS.presentation >= "
  +:+ str (min_presentation c)
  +:+ " AND
            SS.leadership >= "
  +:+ str (min_leadership c)
  +:+ " AND
            SS.Critical_thinking >= "
  +:+ str (min_critical_thinking c)
  +:+ " AND
            SS.interpersonal_skill >= "
  +:+ str (min_interpersonal_skill c)
  +:+ " AND
            PL.mock_interview_score >= "
  +:+ str (min_mock_interview_score c)
  +:+ "
            "
  +:+ (if required_certification c then certification_clause else "")
  +:+ "
            "
  +:+ (if required_internship c then internship_clause else "")
  +:+ "
        ORDER BY PL.mock_interview_score DESC, P.latest_project_score DESC
    ".

(** ** The store: four tables keyed by [student_id]

    Columns are typed the way the statements use them: metrics and
    identifiers are integers, flags and names are text, and every column
    may hold SQL's NULL ([None]). *)

Module Students.
Record row := {
  student_id : option Z;
  name : option string;
  age : option Z;
  gender : option string;
  course_batch : option string;
  city : option string
}.
End Students.

Module Programming.
Record row := {
  student_id : option Z;
  problem_solved : option Z;
  assesment_completed : option Z;
  Mini_project : option Z;
  latest_project_score : option Z;
  Certification : option string
}.
End Programming.

Module SoftSkills.
Record row := {
  student_id : option Z;
  communication : option Z;
  team_work : option Z;
  presentation : option Z;
  leadership : option Z;
  Critical_thinking : option Z;
  interpersonal_skill : option Z
}.
End SoftSkills.

Module Placements.
Record row := {
  student_id : option Z;
  mock_interview_score : option Z;
  internship_complted : option string;
  Placement_status : option string;
  Company_name : option string;
  placement_package : option Z
}.
End Placements.

Record Dataset := {
  students : list Students.row;
  programming : list Programming.row;
  softskills : list SoftSkills.row;
  placements : list Placements.row
}.

(** ** SQL expressions: three-valued logic

    A comparison with NULL is NULL; [WHERE] and [ON] keep a row only when
    the condition is true. *)

Definition sql_ge (x : option Z) (n : Z) : option bool :=
  match x with
  | Some v => Some (bool_decide (n ≤ v))
  | None => None
  end.

Definition sql_eq {A} `{EqDecision A} (x y : option A) : option bool :=
  match x, y with
  | Some v, Some w => Some (bool_decide (v = w))
  | _, _ => None
  end.

Definition sql_and (a b : option bool) : option bool :=
  match a, b with
  | Some false, _ | _, Some false => Some false
  | Some true, Some true => Some true
  | _, _ => None
  end.

(** [e1 AND e2 AND ... AND en], associated to the left as SQL parses it. *)
Definition sql_and_chain (es : list (option bool)) : option bool :=
  match es with
  | [] => Some true
  | e :: es' => foldl sql_and e es'
  end.

Definition sql_true (e : option bool) : Prop := e = Some true.

Global Instance sql_true_dec e : Decision (sql_true e).
Proof. unfold sql_true. apply _. Defined.

(** ** What the built statement denotes *)

(** A row of [Students S JOIN Programming P JOIN SoftSkills SS JOIN
    Placements PL], under the statement's aliases. *)
Record Joined := {
  S : Students.row;
  P : Programming.row;
  SS : SoftSkills.row;
  PL : Placements.row
}.

(** [FROM ... JOIN ... ON S.student_id = X.student_id] (lines 249-252):
    inner joins, evaluated as nested loops in table order. *)
Definition from_clause (d : Dataset) : list Joined :=
  s ← students d;
  p ← filter (λ p, sql_true (sql_eq (Students.student_id s) (Programming.student_id p)))
             (programming d);
  ss ← filter (λ ss, sql_true (sql_eq (Students.student_id s) (SoftSkills.student_id ss)))
              (softskills d);
  pl ← filter (λ pl, sql_true (sql_eq (Students.student_id s) (Placements.student_id pl)))
              (placements d);
  [ {| S := s; P := p; SS := ss; PL := pl |} ].

(** The conjuncts of [WHERE] (lines 254-266): eleven lower bounds, then
    the clause of each checkbox that is ticked.  No table has a column
    named [Yes], so the store reads the double-quoted ["Yes"] and ["yes"]
    as text; text is compared byte by byte, so the case matters. *)
Definition where_conjuncts (c : Criteria) (j : Joined) : list (option bool) :=
  [ sql_ge (Programming.problem_solved (P j)) (min_problem_solved c);
    sql_ge (Programming.assesment_completed (P j)) (min_assesment_completed c);
    sql_ge (Programming.Mini_project (P j)) (min_mini_project c);
    sql_ge (Programming.latest_project_score (P j)) (min_latest_project_score c);
    sql_ge (SoftSkills.communication (SS j)) (min_communication c);
    sql_ge (SoftSkills.team_work (SS j)) (min_team_work c);
    sql_ge (SoftSkills.presentation (SS j)) (min_presentation c);
    sql_ge (SoftSkills.leadership (SS j)) (min_leadership c);
    sql_ge (SoftSkills.Critical_thinking (SS j)) (min_critical_thinking c);
    sql_ge (SoftSkills.interpersonal_skill (SS j)) (min_interpersonal_skill c);
    sql_ge (Placements.mock_interview_score (PL j)) (min_mock_interview_score c) ]
  ++ (if required_certification c
      then [ sql_eq (Programming.Certification (P j)) (Some "Yes") ] else [])
  ++ (if required_internship c
      then [ sql_eq (Placements.internship_complted (PL j)) (Some "yes") ] else []).

Definition where_clause (c : Criteria) (j : Joined) : option bool :=
  sql_and_chain (where_conjuncts c j).

(** Ordering of SQL values in [ORDER BY]: NULL sorts below every number. *)
Definition sql_lt (x y : option Z) : Prop :=
  match x, y with
  | None, Some _ => True
  | Some v, Some w => v < w
  | _, None => False
  end.

Definition sql_le (x y : option Z) : Prop :=
  match x, y with
  | None, _ => True
  | Some v, Some w => v ≤ w
  | Some _, None => False
  end.

(** [ORDER BY PL.mock_interview_score DESC, P.latest_project_score DESC]
    (line 267): [order_by a b] when [a] may stand before [b]. *)
Definition order_by (a b : Joined) : Prop :=
  sql_lt (Placements.mock_interview_score (PL b)) (Placements.mock_interview_score (PL a))
  ∨ (Placements.mock_interview_score (PL a) = Placements.mock_interview_score (PL b)
     ∧ sql_le (Programming.latest_project_score (P b))
              (Programming.latest_project_score (P a))).

Global Instance sql_lt_dec x y : Decision (sql_lt x y).
Proof. destruct x, y; simpl; apply _. Defined.

Global Instance sql_le_dec x y : Decision (sql_le x y).
Proof. destruct x, y; simpl; apply _. Defined.

Global Instance order_by_dec a b : Decision (order_by a b).
Proof. unfold order_by. apply _. Defined.

(** The twenty-two columns of the [SELECT] list (lines 227-248). *)
Module Eligible.
Record row := {
  student_id : option Z;
  name : option string;
  age : option Z;
  gender : option string;
  course_batch : option string;
  city : option string;
  problem_solved : option Z;
  assesment_completed : option Z;
  Mini_project : option Z;
  latest_project_score : option Z;
  Certification : option string;
  communication : option Z;
  team_work : option Z;
  presentation : option Z;
  leadership : option Z;
  Critical_thinking : option Z;
  interpersonal_skill : option Z;
  mock_interview_score : option Z;
  internship_complted : option string;
  Placement_status : option string;
  Company_name : option string;
  placement_package : option Z
}.
End Eligible.

Definition select (j : Joined) : Eligible.row := {|
  Eligible.student_id := Students.student_id (S j);
  Eligible.name := Students.name (S j);
  Eligible.age := Students.age (S j);
  Eligible.gender := Students.gender (S j);
  Eligible.course_batch := Students.course_batch (S j);
  Eligible.city := Students.city (S j);
  Eligible.problem_solved := Programming.problem_solved (P j);
  Eligible.assesment_completed := Programming.assesment_completed (P j);
  Eligible.Mini_project := Programming.Mini_project (P j);
  Eligible.latest_project_score := Programming.latest_project_score (P j);
  Eligible.Certification := Programming.Certification (P j);
  Eligible.communication := SoftSkills.communication (SS j);
  Eligible.team_work := SoftSkills.team_work (SS j);
  Eligible.presentation := SoftSkills.presentation (SS j);
  Eligible.leadership := SoftSkills.leadership (SS j);
  Eligible.Critical_thinking := SoftSkills.Critical_thinking (SS j);
  Eligible.interpersonal_skill := SoftSkills.interpersonal_skill (SS j);
  Eligible.mock_interview_score := Placements.mock_interview_score (PL j);
  Eligible.internship_complted := Placements.internship_complted (PL j);
  Eligible.Placement_status := Placements.Placement_status (PL j);
  Eligible.Company_name := Placements.Company_name (PL j);
  Eligible.placement_package := Placements.placement_package (PL j)
|}.

(** The joined rows the statement keeps, in result order.  The store is
    free in how it sorts; what is proved below relies only on the result
    being sorted by [order_by] and a permutation of the kept rows. *)
Definition eligible_joined (c : Criteria) (d : Dataset) : list Joined :=
  merge_sort order_by
    (filter (λ j, sql_true (where_clause c j)) (from_clause d)).

(** The filter result: the rows of [eligible_students_df]. *)
Definition eligible_students (c : Criteria) (d : Dataset) : list Eligible.row :=
  select <$> eligible_joined c d.

(** The eleven numeric inputs, by the metric they bound. *)
Inductive Threshold :=
  | ProblemSolved | AssesmentCompleted | MiniProject | LatestProjectScore
  | Communication | TeamWork | Presentation | Leadership | CriticalThinking
  | InterpersonalSkill | MockInterviewScore.

Global Instance Threshold_eq_dec : EqDecision Threshold.
Proof. solve_decision. Defined.

Definition threshold (t : Threshold) (c : Criteria) : Z :=
  match t with
  | ProblemSolved => min_problem_solved c
  | AssesmentCompleted => min_assesment_completed c
  | MiniProject => min_mini_project c
  | LatestProjectScore => min_latest_project_score c
  | Communication => min_communication c
  | TeamWork => min_team_work c
  | Presentation => min_presentation c
  | Leadership => min_leadership c
  | CriticalThinking => min_critical_thinking c
  | InterpersonalSkill => min_interpersonal_skill c
  | MockInterviewScore => min_mock_interview_score c
  end.

(** The metric of a result row that a threshold bounds. *)
Definition metric (t : Threshold) (r : Eligible.row) : option Z :=
  match t with
  | ProblemSolved => Eligible.problem_solved r
  | AssesmentCompleted => Eligible.assesment_completed r
  | MiniProject => Eligible.Mini_project r
  | LatestProjectScore => Eligible.latest_project_score r
  | Communication => Eligible.communication r
  | TeamWork => Eligible.team_work r
  | Presentation => Eligible.presentation r
  | Leadership => Eligible.leadership r
  | CriticalThinking => Eligible.Critical_thinking r
  | InterpersonalSkill => Eligible.interpersonal_skill r
  | MockInterviewScore => Eligible.mock_interview_score r
  end.

(** A column value that is a number no smaller than [n]. *)
Definition at_least (x : option Z) (n : Z) : Prop := ∃ v, x = Some v ∧ n ≤ v.

(** [c'] is [c] with the single threshold [t] raised, all else fixed. *)
Definition raised (t : Threshold) (c c' : Criteria) : Prop :=
  threshold t c ≤ threshold t c'
  ∧ (∀ t', t' ≠ t → threshold t' c' = threshold t' c)
  ∧ required_certification c' = required_certification c
  ∧ required_internship c' = required_internship c.

(** The rows of the inner join on the shared identifier. *)
Definition inner_join_row (d : Dataset) (j : Joined) : Prop :=
  S j ∈ students d ∧ P j ∈ programming d ∧ SS j ∈ softskills d ∧ PL j ∈ placements d
  ∧ ∃ id : Z,
      Students.student_id (S j) = Some id
      ∧ Programming.student_id (P j) = Some id
      ∧ SoftSkills.student_id (SS j) = Some id
      ∧ Placements.student_id (PL j) = Some id.


(** ** Widgets of the "Filter Students" page (app.py, lines 200-217) *)

(** [st.slider(label, min_value, max_value, value)]. *)
Record Slider := {
  label : string;
  min_value : Z;
  max_value : Z;
  value : Z
}.

(** [st.checkbox(label, value=...)]. *)
Record Checkbox := {
  box_label : string;
  box_value : bool
}.

(** The slider behind each threshold variable. *)
Definition slider_of (t : Threshold) : Slider :=
  match t with
  | ProblemSolved =>
      {| label := "Minimum Problems Solved"; min_value := 0; max_value := 50; value := 20 |}
  | AssesmentCompleted =>
      {| label := "Minimum Assessments Completed"; min_value := 0; max_value := 10; value := 3 |}
  | MiniProject =>
      {| label := "Minimum Mini Projects"; min_value := 0; max_value := 5; value := 1 |}
  | LatestProjectScore =>
      {| label := "Minimum Latest Project Score"; min_value := 0; max_value := 100; value := 60 |}
  | Communication =>
      {| label := "Minimum Communication Score"; min_value := 0; max_value := 100; value := 65 |}
  | TeamWork =>
      {| label := "Minimum Team Work Score"; min_value := 0; max_value := 50; value := 25 |}
  | Presentation =>
      {| label := "Minimum Presentation Score"; min_value := 0; max_value := 10; value := 5 |}
  | Leadership =>
      {| label := "Minimum Leadership Score"; min_value := 0; max_value := 5; value := 2 |}
  | CriticalThinking =>
      {| label := "Minimum Critical Thinking Score"; min_value := 0; max_value := 5; value := 2 |}
  | InterpersonalSkill =>
      {| label := "Minimum Interpersonal Skill Score"; min_value := 0; max_value := 100; value := 60 |}
  | MockInterviewScore =>
      {| label := "Minimum Mock Interview Score"; min_value := 0; max_value := 100; value := 70 |}
  end.

Definition certification_box : Checkbox :=
  {| box_label := "Certification Required"; box_value := false |}.

Definition internship_box : Checkbox :=
  {| box_label := "Internship Completed (Yes)"; box_value := true |}.

(** What the user has done to the widgets when the script runs: the
    position picked on a slider and the state given to a checkbox, by
    widget label.  A widget that was never touched has no entry. *)
Record Session := {
  picked : gmap string Z;
  ticked : gmap string bool
}.

(** The value a slider hands to the script: its [value] until the user
    moves it, afterwards the position picked, which the widget keeps
    between its two ends. *)
Definition st_slider (ui : Session) (w : Slider) : Z :=
  match picked ui !! label w with
  | Some v => Z.max (min_value w) (Z.min (max_value w) v)
  | None => value w
  end.

Definition st_checkbox (ui : Session) (w : Checkbox) : bool :=
  default (box_value w) (ticked ui !! box_label w).

(** The thirteen variables the page assigns from its widgets. *)
Definition filter_inputs (ui : Session) : Criteria := {|
  min_problem_solved := st_slider ui (slider_of ProblemSolved);
  min_assesment_completed := st_slider ui (slider_of AssesmentCompleted);
  min_mini_project := st_slider ui (slider_of MiniProject);
  min_latest_project_score := st_slider ui (slider_of LatestProjectScore);
  required_certification := st_checkbox ui certification_box;
  min_communication := st_slider ui (slider_of Communication);
  min_team_work := st_slider ui (slider_of TeamWork);
  min_presentation := st_slider ui (slider_of Presentation);
  min_leadership := st_slider ui (slider_of Leadership);
  min_critical_thinking := st_slider ui (slider_of CriticalThinking);
  min_interpersonal_skill := st_slider ui (slider_of InterpersonalSkill);
  min_mock_interview_score := st_slider ui (slider_of MockInterviewScore);
  required_internship := st_checkbox ui internship_box
|}.

(** The documented input table: minimum, maximum and default of each
    threshold. *)
Definition documented_range (t : Threshold) : Z * Z * Z :=
  match t with
  | ProblemSolved => (0, 50, 20)
  | AssesmentCompleted => (0, 10, 3)
  | MiniProject => (0, 5, 1)
  | LatestProjectScore => (0, 100, 60)
  | Communication => (0, 100, 65)
  | TeamWork => (0, 50, 25)
  | Presentation => (0, 10, 5)
  | Leadership => (0, 5, 2)
  | CriticalThinking => (0, 5, 2)
  | InterpersonalSkill => (0, 100, 60)
  | MockInterviewScore => (0, 100, 70)
  end.

(** A session in which no widget was touched. *)
Definition untouched : Session := {| picked := ∅; ticked := ∅ |}.

(** ** Frames *)

(** A cell of a pandas frame read from the store. *)
Inductive Cell :=
  | CNull
  | CInt (n : Z)
  | CText (s : string).

Record DataFrame := {
  columns : list string;
  rows : list (list Cell)
}.

(** [pd.DataFrame()]. *)
Definition empty_frame : DataFrame := {| columns := []; rows := [] |}.

(** [df.empty]: some axis has length zero. *)
Definition empty (df : DataFrame) : bool :=
  bool_decide (columns df = []) || bool_decide (rows df = []).

Definition int_cell (x : option Z) : Cell :=
  match x with Some n => CInt n | None => CNull end.

Definition text_cell (x : option string) : Cell :=
  match x with Some s => CText s | None => CNull end.

(** The cells of a result row, in the order of the [SELECT] list. *)
Definition cells (r : Eligible.row) : list Cell :=
  [ int_cell (Eligible.student_id r); text_cell (Eligible.name r);
    int_cell (Eligible.age r); text_cell (Eligible.gender r);
    text_cell (Eligible.course_batch r); text_cell (Eligible.city r);
    int_cell (Eligible.problem_solved r); int_cell (Eligible.assesment_completed r);
    int_cell (Eligible.Mini_project r); int_cell (Eligible.latest_project_score r);
    text_cell (Eligible.Certification r); int_cell (Eligible.communication r);
    int_cell (Eligible.team_work r); int_cell (Eligible.presentation r);
    int_cell (Eligible.leadership r); int_cell (Eligible.Critical_thinking r);
    int_cell (Eligible.interpersonal_skill r); int_cell (Eligible.mock_interview_score r);
    text_cell (Eligible.internship_complted r); text_cell (Eligible.Placement_status r);
    text_cell (Eligible.Company_name r); int_cell (Eligible.placement_package r) ].

(** *** Column names of a statement's result

    The store names a result column [T.col] by [col].  The names are read
    off the statement text: the words between [SELECT] and [FROM], without
    the separating comma and the table alias. *)

(** The text after the last dot of a word, if it has a dot. *)
Fixpoint after_dot (s : string) : option string :=
  match s with
  | "" => None
  | String a s' =>
      match after_dot s' with
      | Some t => Some t
      | None => if decide (a = "."%char) then Some s' else None
      end
  end.

(** A word without its final comma. *)
Fixpoint drop_comma (s : string) : string :=
  match s with
  | "" => ""
  | String a s' =>
      match s' with
      | "" => if decide (a = ","%char) then "" else s
      | _ => String a (drop_comma s')
      end
  end.

Definition column_name (word : string) : string :=
  let w := drop_comma word in default w (after_dot w).

Fixpoint until_from (ws : list string) : list string :=
  match ws with
  | [] => []
  | w :: ws' => if decide (w = "FROM") then [] else w :: until_from ws'
  end.

Definition select_list (q : string) : list string :=
  match String.words q with
  | "SELECT" :: ws => column_name <$> until_from ws
  | _ => []
  end.

(** The frame the store hands back for the built statement. *)
Definition eligible_frame (c : Criteria) (d : Dataset) : DataFrame := {|
  columns := select_list (eligibility_query c);
  rows := cells <$> eligible_students c d
|}.

(** The header line of [df.to_csv(index=False)]. *)
Definition csv_header (df : DataFrame) : string :=
  String.concat "," (columns df).

(** The twenty-two names the statement is documented to project. *)
Definition documented_columns : list string :=
  [ "student_id"; "name"; "age"; "gender"; "course_batch"; "city";
    "problem_solved"; "assesment_completed"; "Mini_project";
    "latest_project_score"; "Certification"; "communication"; "team_work";
    "presentation"; "leadership"; "Critical_thinking"; "interpersonal_skill";
    "mock_interview_score"; "internship_complted"; "Placement_status";
    "Company_name"; "placement_package" ].


(** ** The store's tokenizer

    Before the store evaluates a statement it cuts the text into tokens
    and refuses the statement at the first text that is no token.  The
    scan below follows the tokenizer character by character, reduced to
    the rules that bear on the statements of this program: quoted text,
    the two comment forms ([--] to the end of the line, [/* */]), and the
    markers [#], [@], [:] and [$], which are tokens only when a name
    follows them. *)

Inductive Lex :=
  | LTop                      (* between tokens, or inside a word *)
  | LQuote (d : ascii)        (* inside text quoted by [d] *)
  | LQuoteEnd (d : ascii)     (* after a [d] inside such text *)
  | LBracket                  (* inside a bracketed name *)
  | LMinus                    (* after a minus sign *)
  | LLine                     (* inside a comment that ends with the line *)
  | LSlash                    (* after a slash *)
  | LBlock                    (* inside a block comment *)
  | LBlockStar                (* after a star inside a block comment *)
  | LMarker                   (* after a marker, before its name *)
  | LBang                     (* after an exclamation mark *)
  | LIllegal.                 (* an unrecognized token was met *)

(** The characters of names: letters, digits, [_], [$], and every byte
    from 128 on. *)
Definition id_char (a : ascii) : bool :=
  let n := nat_of_ascii a in
  ((48 <=? n) && (n <=? 57) || (65 <=? n) && (n <=? 90)
   || (97 <=? n) && (n <=? 122) || (n =? 95) || (n =? 36) || (128 <=? n))%nat.

Definition lex_top (a : ascii) : Lex :=
  if Ascii.is_space a then LTop
  else if bool_decide (a ∈ ["'"; "034"; "`"]%char) then LQuote a
  else if bool_decide (a = "["%char) then LBracket
  else if bool_decide (a = "-"%char) then LMinus
  else if bool_decide (a = "/"%char) then LSlash
  else if bool_decide (a ∈ ["#"; "@"; ":"; "$"]%char) then LMarker
  else if bool_decide (a = "!"%char) then LBang
  else if id_char a then LTop
  else if bool_decide (a ∈ ["("; ")"; ";"; "+"; "*"; ","; "&"; "~"; "%"; "=";
                            "<"; ">"; "|"; "."; "?"]%char) then LTop
  else LIllegal.

Definition lex_step (st : Lex) (a : ascii) : Lex :=
  match st with
  | LTop => lex_top a
  | LQuote d => if bool_decide (a = d) then LQuoteEnd d else LQuote d
  | LQuoteEnd d => if bool_decide (a = d) then LQuote d else lex_top a
  | LBracket => if bool_decide (a = "]"%char) then LTop else LBracket
  | LMinus => if bool_decide (a = "-"%char) then LLine else lex_top a
  | LLine => if bool_decide (a = "010"%char) then LTop else LLine
  | LSlash => if bool_decide (a = "*"%char) then LBlock else lex_top a
  | LBlock => if bool_decide (a = "*"%char) then LBlockStar else LBlock
  | LBlockStar =>
      if bool_decide (a = "/"%char) then LTop
      else if bool_decide (a = "*"%char) then LBlockStar else LBlock
  | LMarker => if id_char a then LTop else LIllegal
  | LBang => if bool_decide (a = "="%char) then LTop else LIllegal
  | LIllegal => LIllegal
  end.

Fixpoint lex_run (st : Lex) (q : string) : Lex :=
  match q with
  | "" => st
  | String a q' => lex_run (lex_step st a) q'
  end.

(** At the end of the text an open quote, an open bracket and a marker
    or exclamation mark without its continuation are no tokens. *)
Definition lex_final (st : Lex) : bool :=
  match st with
  | LQuote _ | LBracket | LMarker | LBang | LIllegal => false
  | _ => true
  end.

Definition tokenizes (q : string) : bool := lex_final (lex_run LTop q).

(** ** Page state and effects *)

(** The Python exceptions the script can meet: pandas' [DatabaseError],
    [sqlite3.Error], and any other [Exception]. *)
Inductive Exn :=
  | PandasDatabaseError (msg : string)
  | Sqlite3Error (msg : string)
  | OtherException (msg : string).

Definition exn_message (e : Exn) : string :=
  match e with
  | PandasDatabaseError msg | Sqlite3Error msg | OtherException msg => msg
  end.

(** The result of a library call: a value, or the exception it raises. *)
Inductive Try (A : Type) :=
  | Value (a : A)
  | Raise (e : Exn).
Global Arguments Value {A} a.
Global Arguments Raise {A} e.

(** What the script puts on the page below the widgets. *)
Inductive Element :=
  | StSuccess (msg : string)
  | StError (msg : string)
  | StInfo (msg : string)
  | StWrite (msg : string)
  | StMarkdown (msg : string)
  | StCode (sql : string)
  | StSubheader (msg : string)
  | StDataframe (df : DataFrame)
  | StDownloadButton (header : string)
  | StBarChart (index column : string)
  | StMetric (label : string).

Definition DB_NAME : string := "placement_data.db".

Record DatabaseManager := { db_name : string }.

Definition db_manager : DatabaseManager := {| db_name := DB_NAME |}.

Section App.
(** The connection type and the two library calls that reach the store:
    [sqlite3.connect(db_name, check_same_thread=False)] and
    [pd.read_sql_query(query, conn, params=...)]. *)
Context {Conn : Type}.
Variable sqlite3_connect : string → Try Conn.
Variable read_sql_query : string → Conn → option (list Cell) → Try DataFrame.

(** The state a run of the script works on: the cached connection
    ([self.conn] under [st.cache_resource]) and the page so far. *)
Record World := {
  conn : option Conn;
  page : list Element
}.

(** A call returns, halts the script ([st.stop()]), or lets an
    exception through to its caller. *)
Inductive Outcome (A : Type) :=
  | Returned (a : A) (w : World)
  | Stopped (w : World)
  | Raised (e : Exn) (w : World).
Global Arguments Returned {A} a w.
Global Arguments Stopped {A} w.
Global Arguments Raised {A} e w.

Definition App (A : Type) : Type := World → Outcome A.

Global Instance App_ret : MRet App := λ A a w, Returned a w.

Global Instance App_bind : MBind App := λ A B f m w,
  match m w with
  | Returned a w' => f a w'
  | Stopped w' => Stopped w'
  | Raised e w' => Raised e w'
  end.

Definition show (e : Element) : App unit :=
  λ w, Returned () {| conn := conn w; page := page w ++ [e] |}.

Definition show_all (es : list Element) : App unit :=
  λ w, Returned () {| conn := conn w; page := page w ++ es |}.

Definition st_stop {A} : App A := λ w, Stopped w.

Definition raise {A} (e : Exn) : App A := λ w, Raised e w.

Definition cached_conn : App (option Conn) := λ w, Returned (conn w) w.

Definition cache_conn (h : Conn) : App unit :=
  λ w, Returned () {| conn := Some h; page := page w |}.

(** [DatabaseManager.get_connection] (lines 27-40). *)
Definition get_connection (self : DatabaseManager) : App Conn :=
  cached ← cached_conn;
  match cached with
  | Some h => mret h
  | None =>
      match sqlite3_connect (db_name self) with
      | Value h =>
          cache_conn h;;
          show (StSuccess ("Successfully connected to database: " +:+ db_name self));;
          mret h
      | Raise (Sqlite3Error e) =>
          show (StError ("Error connecting to database: " +:+ e));;
          st_stop
      | Raise e => raise e
      end
  end.

(** [DatabaseManager.execute_query] (lines 42-61).  [if params:] holds
    for a non-empty parameter sequence. *)
Definition execute_query (self : DatabaseManager) (query : string)
    (params : option (list Cell)) : App DataFrame :=
  conn ← get_connection self;
  match (match params with
         | Some (_ :: _) => read_sql_query query conn params
         | _ => read_sql_query query conn None
         end) with
  | Value df => mret df
  | Raise (PandasDatabaseError e) =>
      show (StError ("Error executing query: " +:+ e));;
      mret empty_frame
  | Raise e =>
      show (StError ("An unexpected error occurred: " +:+ exn_message e));;
      mret empty_frame
  end.

(** What the "View Insights" page adds below a result, picked by column
    names (lines 310-324); the formatted value of the metric is left
    out. *)
Definition visualization (df : DataFrame) : list Element :=
  let has col := bool_decide (col ∈ columns df) in
  if has "count" && has "course_batch" then [StBarChart "course_batch" "count"]
  else if has "score_range" && has "num_students"
    then [StBarChart "score_range" "num_students"]
  else if has "avg_soft_skills_score"
    then [StWrite "Overall Average Soft Skills Score:"; StMetric "Average Score"]
  else if has "avg_package" && has "course_batch"
    then [StBarChart "course_batch" "avg_package"]
  else if has "latest_project_score" && has "name"
    then [StBarChart "name" "latest_project_score"]
  else if has "NumberOfStudents" && has "city"
    then [StBarChart "city" "NumberOfStudents"]
  else [].

(** The "View Insights" page for the report picked in the select box
    (lines 295-326). *)
Definition view_insights (insight_choice : string) : App unit :=
  if bool_decide (insight_choice = "") then mret ()
  else
    match dict_get SQL_QUERIES insight_choice with
    | None => raise (OtherException "KeyError")
    | Some query_to_run =>
        show (StCode query_to_run);;
        insight_df ← execute_query db_manager query_to_run None;
        if negb (empty insight_df) then
          show (StSubheader "Query Result");;
          show (StDataframe insight_df);;
          show_all (visualization insight_df)
        else show (StInfo "No data returned for this insight query.")
    end.

(** The "Filter Students" page after its widgets (lines 225-287); the
    count line's number formatting is [str]. *)
Definition filter_students (ui : Session) : App DataFrame :=
  let c := filter_inputs ui in
  let eligibility_query := eligibility_query c in
  show (StMarkdown "---");;
  show (StSubheader "Eligible Candidates");;
  eligible_students_df ← execute_query db_manager eligibility_query None;
  (if negb (empty eligible_students_df) then
     show (StWrite ("Found " +:+ str (Z.of_nat (length (rows eligible_students_df)))
                    +:+ " eligible student(s) based on your criteria:"));;
     show (StDataframe eligible_students_df);;
     show (StDownloadButton (csv_header eligible_students_df))
   else
     show (StInfo "No students found matching the specified criteria. Try adjusting the filters."));;
  mret eligible_students_df.
End App.

Global Arguments World : clear implicits.
Global Arguments Outcome : clear implicits.
Global Arguments App : clear implicits.

(** ** The store behind the connection

    A connection gives access to the dataset.  The store first cuts the
    statement into tokens; a statement that passes is evaluated ([eval]:
    parsing and execution, a frame or an error), one that does not is
    refused.  pandas reports either failure as its [DatabaseError]. *)
Definition pd_read_sql_query (eval : string → Dataset → Try DataFrame)
    (query : string) (conn : Dataset) (params : option (list Cell)) : Try DataFrame :=
  if tokenizes query then
    match eval query conn with
    | Value df => Value df
    | Raise e =>
        Raise (PandasDatabaseError
                 ("Execution failed on sql '" +:+ query +:+ "': " +:+ exn_message e))
    end
  else
    Raise (PandasDatabaseError
             ("Execution failed on sql '" +:+ query +:+ "': unrecognized token")).


(** ** A small dataset

    Four students: two meet the default criteria, one has a low mock
    interview score, and one has no row in [Placements]. *)
Definition sample_dataset : Dataset := {|
  students := [
    {| Students.student_id := Some 1; Students.name := Some "Asha"; Students.age := Some 22;
       Students.gender := Some "Female"; Students.course_batch := Some "Batch A";
       Students.city := Some "Pune" |};
    {| Students.student_id := Some 2; Students.name := Some "Ravi"; Students.age := Some 23;
       Students.gender := Some "Male"; Students.course_batch := Some "Batch B";
       Students.city := Some "Delhi" |};
    {| Students.student_id := Some 3; Students.name := Some "Meena"; Students.age := Some 21;
       Students.gender := Some "Female"; Students.course_batch := Some "Batch A";
       Students.city := Some "Chennai" |};
    {| Students.student_id := Some 4; Students.name := Some "Kiran"; Students.age := Some 24;
       Students.gender := Some "Male"; Students.course_batch := Some "Batch C";
       Students.city := Some "Kochi" |} ];
  programming := [
    {| Programming.student_id := Some 1; Programming.problem_solved := Some 30;
       Programming.assesment_completed := Some 5; Programming.Mini_project := Some 2;
       Programming.latest_project_score := Some 70; Programming.Certification := Some "No" |};
    {| Programming.student_id := Some 2; Programming.problem_solved := Some 45;
       Programming.assesment_completed := Some 8; Programming.Mini_project := Some 3;
       Programming.latest_project_score := Some 90; Programming.Certification := Some "Yes" |};
    {| Programming.student_id := Some 3; Programming.problem_solved := Some 40;
       Programming.assesment_completed := Some 6; Programming.Mini_project := Some 4;
       Programming.latest_project_score := Some 95; Programming.Certification := Some "Yes" |};
    {| Programming.student_id := Some 4; Programming.problem_solved := Some 50;
       Programming.assesment_completed := Some 10; Programming.Mini_project := Some 5;
       Programming.latest_project_score := Some 100; Programming.Certification := Some "Yes" |} ];
  softskills := [
    {| SoftSkills.student_id := Some 1; SoftSkills.communication := Some 80;
       SoftSkills.team_work := Some 40; SoftSkills.presentation := Some 7;
       SoftSkills.leadership := Some 3; SoftSkills.Critical_thinking := Some 4;
       SoftSkills.interpersonal_skill := Some 75 |};
    {| SoftSkills.student_id := Some 2; SoftSkills.communication := Some 70;
       SoftSkills.team_work := Some 30; SoftSkills.presentation := Some 6;
       SoftSkills.leadership := Some 2; SoftSkills.Critical_thinking := Some 3;
       SoftSkills.interpersonal_skill := Some 65 |};
    {| SoftSkills.student_id := Some 3; SoftSkills.communication := Some 90;
       SoftSkills.team_work := Some 45; SoftSkills.presentation := Some 9;
       SoftSkills.leadership := Some 5; SoftSkills.Critical_thinking := Some 5;
       SoftSkills.interpersonal_skill := Some 85 |};
    {| SoftSkills.student_id := Some 4; SoftSkills.communication := Some 95;
       SoftSkills.team_work := Some 50; SoftSkills.presentation := Some 10;
       SoftSkills.leadership := Some 5; SoftSkills.Critical_thinking := Some 5;
       SoftSkills.interpersonal_skill := Some 95 |} ];
  placements := [
    {| Placements.student_id := Some 1; Placements.mock_interview_score := Some 80;
       Placements.internship_complted := Some "yes"; Placements.Placement_status := Some "Ready";
       Placements.Company_name := None; Placements.placement_package := None |};
    {| Placements.student_id := Some 2; Placements.mock_interview_score := Some 80;
       Placements.internship_complted := Some "yes"; Placements.Placement_status := Some "Placed";
       Placements.Company_name := Some "Acme"; Placements.placement_package := Some 600000 |};
    {| Placements.student_id := Some 3; Placements.mock_interview_score := Some 49;
       Placements.internship_complted := Some "yes"; Placements.Placement_status := Some "Not Ready";
       Placements.Company_name := None; Placements.placement_package := None |} ]
|}.

(** The criteria of a page whose widgets were never touched. *)
Definition default_criteria : Criteria := filter_inputs untouched.

(** The rows of students 2 and 1, as the statement projects them. *)
Definition sample_row_2 : Eligible.row := {|
  Eligible.student_id := Some 2; Eligible.name := Some "Ravi"; Eligible.age := Some 23;
  Eligible.gender := Some "Male"; Eligible.course_batch := Some "Batch B";
  Eligible.city := Some "Delhi"; Eligible.problem_solved := Some 45;
  Eligible.assesment_completed := Some 8; Eligible.Mini_project := Some 3;
  Eligible.latest_project_score := Some 90; Eligible.Certification := Some "Yes";
  Eligible.communication := Some 70; Eligible.team_work := Some 30;
  Eligible.presentation := Some 6; Eligible.leadership := Some 2;
  Eligible.Critical_thinking := Some 3; Eligible.interpersonal_skill := Some 65;
  Eligible.mock_interview_score := Some 80; Eligible.internship_complted := Some "yes";
  Eligible.Placement_status := Some "Placed"; Eligible.Company_name := Some "Acme";
  Eligible.placement_package := Some 600000
|}.

Definition sample_row_1 : Eligible.row := {|
  Eligible.student_id := Some 1; Eligible.name := Some "Asha"; Eligible.age := Some 22;
  Eligible.gender := Some "Female"; Eligible.course_batch := Some "Batch A";
  Eligible.city := Some "Pune"; Eligible.problem_solved := Some 30;
  Eligible.assesment_completed := Some 5; Eligible.Mini_project := Some 2;
  Eligible.latest_project_score := Some 70; Eligible.Certification := Some "No";
  Eligible.communication := Some 80; Eligible.team_work := Some 40;
  Eligible.presentation := Some 7; Eligible.leadership := Some 3;
  Eligible.Critical_thinking := Some 4; Eligible.interpersonal_skill := Some 75;
  Eligible.mock_interview_score := Some 80; Eligible.internship_complted := Some "yes";
  Eligible.Placement_status := Some "Ready"; Eligible.Company_name := None;
  Eligible.placement_package := None
|}.


(** ** Text search

    [occurs p s]: the text [p] stands somewhere in [s]; [contains] decides
    it ([p in s] in Python). *)
Definition occurs (p s : string) : Prop := ∃ a b, s = a +:+ p +:+ b.

Fixpoint contains (p s : string) : bool :=
  String.prefix p s
  || match s with
     | "" => false
     | String _ s' => contains p s'
     end.

(** The characters of a text, as a list. *)
Abbreviation chars := String.list_ascii_of_string.

(** The characters [str] writes: the ten digits and the minus sign. *)
Definition numeral (a : ascii) : Prop := a ∈ chars "0123456789-".

Global Instance numeral_dec a : Decision (numeral a).
Proof. unfold numeral. apply _. Defined.

Fixpoint ends_with_space (s : string) : bool :=
  match s with
  | "" => false
  | String a s' =>
      match s' with
      | "" => Ascii.is_space a
      | _ => ends_with_space s'
      end
  end.


(** ** The histogram report (app.py, lines 110-123)

    What the [CASE] expression, [GROUP BY] and [ORDER BY] of the
    "Distribution of Mock Interview Scores" statement say.  [BETWEEN] on
    NULL is not true, so a NULL score falls through to [ELSE]. *)
Definition score_range (mock_interview_score : option Z) : string :=
  match mock_interview_score with
  | Some v =>
      if bool_decide (0 ≤ v ≤ 49) then "0-49 (Poor)"
      else if bool_decide (50 ≤ v ≤ 69) then "50-69 (Average)"
      else if bool_decide (70 ≤ v ≤ 89) then "70-89 (Good)"
      else if bool_decide (90 ≤ v ≤ 100) then "90-100 (Excellent)"
      else "N/A"
  | None => "N/A"
  end.

(** The labelled counts: one row per label that occurs, in label order. *)
Definition score_histogram (d : Dataset) : list (string * nat) :=
  let labels :=
    (λ pl, score_range (Placements.mock_interview_score pl)) <$> placements d in
  (λ l, (l, length (filter (λ l', l' = l) labels)))
    <$> merge_sort String.le (remove_dups labels).

(** The text the catalog holds for the report. *)
Definition distribution_query : string :=
  default "" (dict_get SQL_QUERIES "Distribution of Mock Interview Scores").

(** ** Executor outcomes *)

(** A store file that cannot be opened: [sqlite3.connect] raises
    [sqlite3.OperationalError], a [sqlite3.Error]. *)
Definition unreachable_store : string → Try Dataset :=
  λ _, Raise (Sqlite3Error "unable to open database file").

(** The message [execute_query] shows for an exception of the backend. *)
Definition diagnostic (e : Exn) : string :=
  match e with
  | PandasDatabaseError msg => "Error executing query: " +:+ msg
  | _ => "An unexpected error occurred: " +:+ exn_message e
  end.

(** The page once [get_connection] has returned: unchanged when the
    connection was cached, with the greeting when it was just opened. *)
Definition greeted {Conn} (self : DatabaseManager) (w : World Conn) : list Element :=
  match conn w with
  | Some _ => page w
  | None => page w ++ [StSuccess ("Successfully connected to database: " +:+ db_name self)]
  end.

(** A run that starts with nothing cached and nothing shown. *)
Definition fresh {Conn} : World Conn := {| conn := None; page := [] |}.


(** ** Tightening the criteria *)

(** [c'] asks at least as much as [c]: no threshold is lower and every
    checkbox ticked in [c] is ticked in [c']. *)
Definition stricter (c c' : Criteria) : Prop :=
  (∀ t, threshold t c ≤ threshold t c')
  ∧ (required_certification c = true → required_certification c' = true)
  ∧ (required_internship c = true → required_internship c' = true).

(** The four tables hold at most one row per identifier. *)
Definition one_row_per_student (d : Dataset) : Prop :=
  NoDup (Students.student_id <$> students d)
  ∧ NoDup (Programming.student_id <$> programming d)
  ∧ NoDup (SoftSkills.student_id <$> softskills d)
  ∧ NoDup (Placements.student_id <$> placements d).


(** A text that starts with a character [str] never writes. *)
Definition starts_plain (s : string) : bool :=
  match s with
  | "" => false
  | String a _ => bool_decide (¬ numeral a)
  end.


(** ** Reports of the catalog and what they denote

    The statements of lines 86-92, 104-109, 124-129, 138-153 and 154-169,
    as list programs over the same tables. *)

Definition sql_or (a b : option bool) : option bool :=
  match a, b with
  | Some true, _ | _, Some true => Some true
  | Some false, Some false => Some false
  | _, _ => None
  end.

(** [x IN (v1, ..., vn)] for text constants: [x = v1 OR ... OR x = vn]. *)
Definition sql_in (x : option string) (vs : list string) : option bool :=
  foldr (λ v acc, sql_or (sql_eq x (Some v)) acc) (Some false) vs.

(** [FROM Students S JOIN Placements PL ON S.student_id = PL.student_id]. *)
Definition students_placements (d : Dataset) : list (Students.row * Placements.row) :=
  s ← students d;
  pl ← filter (λ pl, sql_true (sql_eq (Students.student_id s) (Placements.student_id pl)))
              (placements d);
  [ (s, pl) ].

(** [FROM Students S JOIN Programming P ON S.student_id = P.student_id]. *)
Definition students_programming (d : Dataset) : list (Students.row * Programming.row) :=
  s ← students d;
  p ← filter (λ p, sql_true (sql_eq (Students.student_id s) (Programming.student_id p)))
             (programming d);
  [ (s, p) ].

(** The columns of "Students Ready for Placement" and of "Students with
    High Mock Interview Scores and Placement Status". *)
Module Status.
Record row := {
  name : option string;
  course_batch : option string;
  mock_interview_score : option Z;
  Placement_status : option string;
  Company_name : option string
}.
End Status.

Definition status_row (j : Students.row * Placements.row) : Status.row := {|
  Status.name := Students.name j.1;
  Status.course_batch := Students.course_batch j.1;
  Status.mock_interview_score := Placements.mock_interview_score j.2;
  Status.Placement_status := Placements.Placement_status j.2;
  Status.Company_name := Placements.Company_name j.2
|}.

(** "Students Ready for Placement" (lines 124-129):
    [WHERE PL.Placement_status = 'Ready' OR PL.Placement_status = 'Placed']. *)
Definition ready_for_placement (d : Dataset) : list Status.row :=
  status_row <$>
    filter (λ j, sql_true (sql_or (sql_eq (Placements.Placement_status j.2) (Some "Ready"))
                                  (sql_eq (Placements.Placement_status j.2) (Some "Placed"))))
           (students_placements d).

(** [ORDER BY PL.mock_interview_score DESC]. *)
Definition by_mock_desc (a b : Students.row * Placements.row) : Prop :=
  sql_le (Placements.mock_interview_score b.2) (Placements.mock_interview_score a.2).

(** "Students with High Mock Interview Scores and Placement Status"
    (lines 138-153): [WHERE PL.Placement_status IN ('Ready', 'Placed')
    ORDER BY PL.mock_interview_score DESC]. *)
Definition high_mock_with_status (d : Dataset) : list Status.row :=
  status_row <$>
    merge_sort by_mock_desc
      (filter (λ j, sql_true (sql_in (Placements.Placement_status j.2) ["Ready"; "Placed"]))
              (students_placements d)).

(** "Students with Internship Completed" (lines 104-109): name and batch
    of the students [WHERE PL.internship_complted = 'yes']. *)
Definition internship_completed (d : Dataset) : list (option string * option string) :=
  (λ j, (Students.name j.1, Students.course_batch j.1)) <$>
    filter (λ j, sql_true (sql_eq (Placements.internship_complted j.2) (Some "yes")))
           (students_placements d).

(** [ORDER BY P.latest_project_score DESC]. *)
Definition by_project_desc (a b : Students.row * Programming.row) : Prop :=
  sql_le (Programming.latest_project_score b.2) (Programming.latest_project_score a.2).

(** "Top 5 Students by Latest Project Score" (lines 86-92): name and
    score, [ORDER BY P.latest_project_score DESC LIMIT 5]. *)
Definition top_5_by_project (d : Dataset) : list (option string * option Z) :=
  (λ j, (Students.name j.1, Programming.latest_project_score j.2)) <$>
    take 5 (merge_sort by_project_desc (students_programming d)).

(** [ORDER BY PL.placement_package DESC]. *)
Definition by_package_desc (a b : Students.row * Placements.row) : Prop :=
  sql_le (Placements.placement_package b.2) (Placements.placement_package a.2).

(** The columns of "Student with Highest Placement Package". *)
Module Package.
Record row := {
  name : option string;
  course_batch : option string;
  Company_name : option string;
  placement_package : option Z
}.
End Package.

Definition package_row (j : Students.row * Placements.row) : Package.row := {|
  Package.name := Students.name j.1;
  Package.course_batch := Students.course_batch j.1;
  Package.Company_name := Placements.Company_name j.2;
  Package.placement_package := Placements.placement_package j.2
|}.

(** The rows [WHERE PL.Placement_status = 'Placed']. *)
Definition placed (d : Dataset) : list (Students.row * Placements.row) :=
  filter (λ j, sql_true (sql_eq (Placements.Placement_status j.2) (Some "Placed")))
         (students_placements d).

(** "Student with Highest Placement Package" (lines 154-169):
    [ORDER BY PL.placement_package DESC LIMIT 1] over the placed. *)
Definition highest_package (d : Dataset) : list Package.row :=
  package_row <$> take 1 (merge_sort by_package_desc (placed d)).

Global Instance by_mock_desc_dec a b : Decision (by_mock_desc a b).
Proof. unfold by_mock_desc. apply _. Defined.

Global Instance by_project_desc_dec a b : Decision (by_project_desc a b).
Proof. unfold by_project_desc. apply _. Defined.

Global Instance by_package_desc_dec a b : Decision (by_package_desc a b).
Proof. unfold by_package_desc. apply _. Defined.


(** ** Grouped counts (lines 79, 81 and 170-175) *)

(** "Total Students": the count of all rows of [Students]. *)
Definition total_students (d : Dataset) : nat := length (students d).

(** [GROUP BY key] with a count per group: one row per distinct key
    (NULL is a key of its own), counting the rows of the group that
    [counted] holds of. *)
Definition group_count {A K} `{EqDecision K} (key : A → K) (counted : A → bool)
    (l : list A) : list (K * nat) :=
  (λ k, (k, length (filter (λ x, key x = k ∧ counted x = true) l)))
    <$> remove_dups (key <$> l).

(** [ORDER BY count DESC]. *)
Definition by_count_desc {K} (a b : K * nat) : Prop := (b.2 ≤ a.2)%nat.

Global Instance by_count_desc_dec {K} (a b : K * nat) : Decision (by_count_desc a b).
Proof. unfold by_count_desc. apply _. Defined.

(** "Students by Course Batch" (line 81): the count of all rows per
    batch, largest first. *)
Definition students_by_course_batch (d : Dataset) : list (option string * nat) :=
  merge_sort by_count_desc
    (group_count Students.course_batch (λ _, true) (students d)).

(** "Count Students by City" (lines 170-175): [COUNT(student_id)] counts
    the rows of a city whose [student_id] is not NULL. *)
Definition count_students_by_city (d : Dataset) : list (option string * nat) :=
  merge_sort by_count_desc
    (group_count Students.city
       (λ s, bool_decide (is_Some (Students.student_id s))) (students d)).

(** * Properties *)

(** ** Three-valued conditions *)

Lemma sql_and_true a b : sql_true (sql_and a b) ↔ sql_true a ∧ sql_true b.
Proof.
  unfold sql_true.
  destruct a as [[]|], b as [[]|]; simpl; split; intros; destruct_and?; done.
Qed.

Lemma sql_and_chain_true es : sql_true (sql_and_chain es) ↔ Forall sql_true es.
Proof.
  destruct es as [|e es]; simpl; [by split; [constructor|]|].
  rewrite Forall_cons. revert e.
  induction es as [|e' es IH]; intros e; simpl.
  - split; [by split; [|constructor]|by intros []].
  - rewrite IH, sql_and_true, Forall_cons. tauto.
Qed.

Lemma sql_ge_true x n : sql_true (sql_ge x n) ↔ at_least x n.
Proof.
  unfold sql_true, at_least, sql_ge. destruct x as [v|].
  - split.
    + intros [= H%bool_decide_eq_true]. eauto.
    + intros (w & [= <-] & ?). f_equal. by apply bool_decide_eq_true.
  - split; [done|by intros (? & ? & ?)].
Qed.

Lemma sql_eq_true {A} `{EqDecision A} (x y : option A) :
  sql_true (sql_eq x y) ↔ ∃ v, x = Some v ∧ y = Some v.
Proof.
  unfold sql_true, sql_eq. destruct x as [v|], y as [w|];
    try (split; [done|by intros (? & ? & ?)]).
  split.
  - intros [= ->%bool_decide_eq_true]. eauto.
  - intros (u & [= ->] & [= ->]). f_equal. by apply bool_decide_eq_true.
Qed.

(** ** Join, filter and order *)

Lemma elem_of_from_clause d j : j ∈ from_clause d ↔ inner_join_row d j.
Proof.
  unfold from_clause, inner_join_row. split.
  - intros Hj.
    apply list_elem_of_bind in Hj as (s & Hj & Hs).
    apply list_elem_of_bind in Hj as (p & Hj & [Hp Hp']%list_elem_of_filter).
    apply list_elem_of_bind in Hj as (ss & Hj & [Hss Hss']%list_elem_of_filter).
    apply list_elem_of_bind in Hj as (pl & Hj & [Hpl Hpl']%list_elem_of_filter).
    apply list_elem_of_singleton in Hj as ->. simpl.
    apply sql_eq_true in Hp as (id & Hid & Hp).
    apply sql_eq_true in Hss as (id2 & Hid2 & Hss).
    apply sql_eq_true in Hpl as (id3 & Hid3 & Hpl).
    repeat split; try done. exists id. repeat split; congruence.
  - destruct j as [s p ss pl]; simpl.
    intros (Hs & Hp & Hss & Hpl & id & Es & Ep & Ess & Epl).
    apply list_elem_of_bind. exists s. split; [|done].
    apply list_elem_of_bind. exists p. split.
    2:{ apply list_elem_of_filter. split; [|done]. apply sql_eq_true. eauto. }
    apply list_elem_of_bind. exists ss. split.
    2:{ apply list_elem_of_filter. split; [|done]. apply sql_eq_true. eauto. }
    apply list_elem_of_bind. exists pl. split.
    2:{ apply list_elem_of_filter. split; [|done]. apply sql_eq_true. eauto. }
    by apply list_elem_of_singleton.
Qed.

Lemma elem_of_eligible_joined c d j :
  j ∈ eligible_joined c d ↔ inner_join_row d j ∧ Forall sql_true (where_conjuncts c j).
Proof.
  unfold eligible_joined. rewrite merge_sort_Permutation.
  rewrite list_elem_of_filter, elem_of_from_clause.
  unfold where_clause. rewrite sql_and_chain_true. tauto.
Qed.


Lemma where_conjuncts_true c j :
  Forall sql_true (where_conjuncts c j) ↔
    (∀ t, at_least (metric t (select j)) (threshold t c))
    ∧ (required_certification c = true →
       Programming.Certification (P j) = Some "Yes")
    ∧ (required_internship c = true →
       Placements.internship_complted (PL j) = Some "yes").
Proof.
  unfold where_conjuncts.
  rewrite !Forall_app, !Forall_cons, !sql_ge_true.
  assert (Hflag : ∀ (b : bool) (x : option string) (s : string),
    Forall sql_true (if b then [sql_eq x (Some s)] else []) ↔ (b = true → x = Some s)).
  { intros [] x s.
    - rewrite Forall_singleton, sql_eq_true. split.
      + intros (v & -> & [= ->]). done.
      + intros Hx. exists s. by rewrite Hx.
    - split; [done|constructor]. }
  rewrite !Hflag. split.
  - intros ((?&?&?&?&?&?&?&?&?&?&?&_) & ? & ?).
    split; [|done]. intros []; done.
  - intros (Ht & ? & ?). split; [|done].
    pose proof (Ht ProblemSolved). pose proof (Ht AssesmentCompleted).
    pose proof (Ht MiniProject). pose proof (Ht LatestProjectScore).
    pose proof (Ht Communication). pose proof (Ht TeamWork).
    pose proof (Ht Presentation). pose proof (Ht Leadership).
    pose proof (Ht CriticalThinking). pose proof (Ht InterpersonalSkill).
    pose proof (Ht MockInterviewScore).
    repeat split; done.
Qed.

Lemma elem_of_eligible_students c d r :
  r ∈ eligible_students c d ↔
    ∃ j, r = select j ∧ inner_join_row d j ∧ Forall sql_true (where_conjuncts c j).
Proof.
  unfold eligible_students. rewrite list_elem_of_fmap.
  by setoid_rewrite elem_of_eligible_joined.
Qed.

Global Instance order_by_total : Total order_by.
Proof.
  intros a b. unfold order_by.
  destruct (Placements.mock_interview_score (PL a)) as [x|],
    (Placements.mock_interview_score (PL b)) as [y|],
    (Programming.latest_project_score (P a)) as [u|],
    (Programming.latest_project_score (P b)) as [v|]; simpl;
    try (destruct (Z.lt_trichotomy x y) as [?|[->|?]]);
    try (destruct (Z.le_ge_cases u v)); auto; try (right; right; split; [done|lia]);
    try (left; right; split; [done|lia]).
Qed.

Global Instance order_by_trans : Transitive order_by.
Proof.
  intros a b c. unfold order_by.
  destruct (Placements.mock_interview_score (PL a)) as [x|],
    (Placements.mock_interview_score (PL b)) as [y|],
    (Placements.mock_interview_score (PL c)) as [z|],
    (Programming.latest_project_score (P a)) as [u|],
    (Programming.latest_project_score (P b)) as [v|],
    (Programming.latest_project_score (P c)) as [w|]; simpl;
    intros [?|[? ?]] [?|[? ?]]; simplify_eq; try done;
    try (left; lia); try (right; split; [done|lia]); auto.
Qed.

Lemma eligible_joined_sorted c d : StronglySorted order_by (eligible_joined c d).
Proof. apply (StronglySorted_merge_sort _). Qed.

Lemma StronglySorted_lookup_lt {A} (R : relation A) (l : list A) i j x y :
  StronglySorted R l → l !! i = Some x → l !! j = Some y → (i < j)%nat → R x y.
Proof.
  intros Hl. revert i j. induction Hl as [|z l Hl IH Hz]; intros i j Hi Hj Hij.
  - done.
  - destruct j as [|j]; [lia|]. destruct i as [|i]; simpl in *.
    + simplify_eq. rewrite Forall_forall in Hz. apply Hz.
      by eapply list_elem_of_lookup_2.
    + apply (IH i j); [done..|lia].
Qed.


(** On the sample the default criteria keep students 2 and 1, the higher
    latest project score first; student 3 fails the mock interview bound
    and student 4 has no placement row. *)
Example eligible_students_sample :
  eligible_students default_criteria sample_dataset = [sample_row_2; sample_row_1].
Proof. vm_compute. reflexivity. Qed.

(** ** The filter result *)

Lemma eligible_rows_at_least c d r :
  r ∈ eligible_students c d → ∀ t, at_least (metric t r) (threshold t c).
Proof.
  intros (j & -> & _ & Hw)%elem_of_eligible_students.
  by apply where_conjuncts_true in Hw as (Ht & _ & _).
Qed.

(** C1: every row of the filter result is the projection of a row of the
    inner join of the four tables on [student_id], and each of its eleven
    metrics is a number no smaller than the corresponding threshold. *)
Theorem filter_rows_joined_and_above_thresholds c d r :
  r ∈ eligible_students c d →
  (∃ j, inner_join_row d j ∧ r = select j)
  ∧ ∀ t, at_least (metric t r) (threshold t c).
Proof.
  intros Hr. split; [|by apply (eligible_rows_at_least c d)].
  apply elem_of_eligible_students in Hr as (j & -> & Hj & _). by exists j.
Qed.

Lemma filter_rows_joined_and_above_thresholds_witness :
  (∃ j, inner_join_row sample_dataset j ∧ sample_row_1 = select j)
  ∧ ∀ t, at_least (metric t sample_row_1) (threshold t default_criteria).
Proof.
  apply (filter_rows_joined_and_above_thresholds default_criteria sample_dataset sample_row_1).
  rewrite eligible_students_sample. apply list_elem_of_In. simpl. tauto.
Defined.

(** C3: in the filter result a row with a higher mock interview score
    stands before a row with a lower one, and among rows with equal mock
    interview scores the one with the higher latest project score stands
    first.  Both keys of a result row are numbers. *)
Theorem filter_rows_ordered c d (i j : nat) A B :
  eligible_students c d !! i = Some A →
  eligible_students c d !! j = Some B →
  ∃ a b pa pb,
    Eligible.mock_interview_score A = Some a
    ∧ Eligible.mock_interview_score B = Some b
    ∧ Eligible.latest_project_score A = Some pa
    ∧ Eligible.latest_project_score B = Some pb
    ∧ (b < a → (i < j)%nat)
    ∧ (a = b → pb < pa → (i < j)%nat).
Proof.
  intros HA HB.
  assert (HinA : A ∈ eligible_students c d) by by eapply list_elem_of_lookup_2.
  assert (HinB : B ∈ eligible_students c d) by by eapply list_elem_of_lookup_2.
  pose proof (eligible_rows_at_least _ _ _ HinA) as HtA.
  pose proof (eligible_rows_at_least _ _ _ HinB) as HtB.
  destruct (HtA MockInterviewScore) as (a & Ha & _).
  destruct (HtB MockInterviewScore) as (b & Hb & _).
  destruct (HtA LatestProjectScore) as (pa & Hpa & _).
  destruct (HtB LatestProjectScore) as (pb & Hpb & _).
  simpl in *. exists a, b, pa, pb. repeat split; try done.
  all: unfold eligible_students in HA, HB.
  all: apply list_lookup_fmap_Some in HA as (ja & -> & HA).
  all: apply list_lookup_fmap_Some in HB as (jb & -> & HB).
  all: simpl in *; intros.
  all: destruct (decide (i < j)%nat) as [|Hge]; [done|exfalso].
  all: destruct (decide (i = j)) as [->|Hne]; [simplify_eq; lia|].
  all: assert (Hord : order_by jb ja)
         by (eapply (StronglySorted_lookup_lt order_by (eligible_joined c d) j i);
             [apply eligible_joined_sorted|done..|lia]).
  all: unfold order_by in Hord; rewrite Ha, Hb, Hpa, Hpb in Hord; simpl in Hord.
  all: destruct Hord as [?|[? ?]]; simplify_eq; lia.
Qed.

Lemma filter_rows_ordered_witness :
  ∃ a b pa pb,
    Eligible.mock_interview_score sample_row_2 = Some a
    ∧ Eligible.mock_interview_score sample_row_1 = Some b
    ∧ Eligible.latest_project_score sample_row_2 = Some pa
    ∧ Eligible.latest_project_score sample_row_1 = Some pb
    ∧ (b < a → (0 < 1)%nat)
    ∧ (a = b → pb < pa → (0 < 1)%nat).
Proof.
  apply (filter_rows_ordered default_criteria sample_dataset 0 1 sample_row_2 sample_row_1).
  - rewrite eligible_students_sample. reflexivity.
  - rewrite eligible_students_sample. reflexivity.
Defined.

(** C4: raising one threshold, with every other input fixed, only removes
    rows: each row of the new result is a row of the old one. *)
Theorem raising_threshold_removes_rows t c c' d r :
  raised t c c' →
  r ∈ eligible_students c' d → r ∈ eligible_students c d.
Proof.
  intros (Hle & Hsame & Hcert & Hint).
  rewrite !elem_of_eligible_students.
  intros (j & -> & Hj & Hw). exists j. split; [done|]. split; [done|].
  apply where_conjuncts_true in Hw as (Ht & Hc & Hi).
  apply where_conjuncts_true. rewrite <- Hcert, <- Hint. split; [|done].
  intros t'. destruct (Ht t') as (v & Hv & Hbound).
  exists v. split; [done|].
  destruct (decide (t' = t)) as [->|Hne]; [lia|].
  rewrite <- (Hsame t' Hne). done.
Qed.


Lemma raising_threshold_removes_rows_witness :
  sample_row_2 ∈ eligible_students default_criteria sample_dataset.
Proof.
  apply (raising_threshold_removes_rows LatestProjectScore default_criteria
           {| min_problem_solved := 20; min_assesment_completed := 3;
              min_mini_project := 1; min_latest_project_score := 80;
              required_certification := false; min_communication := 65;
              min_team_work := 25; min_presentation := 5; min_leadership := 2;
              min_critical_thinking := 2; min_interpersonal_skill := 60;
              min_mock_interview_score := 70; required_internship := true |}
           sample_dataset sample_row_2).
  - split; [vm_compute; discriminate|].
    split; [intros [] ?; done|]. split; reflexivity.
  - vm_compute. apply list_elem_of_In. simpl. tauto.
Defined.


(** ** Text of the built statement *)

Lemma chars_app a b : chars (a +:+ b) = chars a ++ chars b.
Proof. induction a as [|x a IH]; simpl; [done|by rewrite IH]. Qed.

Lemma of_chars_app l k :
  String.string_of_list_ascii (l ++ k)
  = String.string_of_list_ascii l +:+ String.string_of_list_ascii k.
Proof. induction l as [|x l IH]; simpl; [done|by rewrite IH]. Qed.

Lemma occurs_chars p s : occurs p s ↔ ∃ l k, chars s = l ++ chars p ++ k.
Proof.
  split.
  - intros (a & b & ->). exists (chars a), (chars b). by rewrite !chars_app.
  - intros (l & k & H).
    exists (String.string_of_list_ascii l), (String.string_of_list_ascii k).
    rewrite <- (String.string_of_list_ascii_of_string s), H, !of_chars_app.
    by rewrite String.string_of_list_ascii_of_string.
Qed.

Lemma append_cons x (a b : string) : String x a +:+ b = String x (a +:+ b).
Proof. reflexivity. Qed.

Lemma prefix_true p s : String.prefix p s = true ↔ ∃ b, s = p +:+ b.
Proof.
  revert s. induction p as [|x p IH]; intros [|y s]; simpl.
  - split; [by exists ""|done].
  - split; [by exists (String y s)|done].
  - split; [done|by intros (? & ?)].
  - setoid_rewrite append_cons.
    destruct (Ascii.ascii_dec x y) as [->|Hne].
    + rewrite IH. split; intros (b & Hb); exists b; [by rewrite Hb|by simplify_eq].
    + split; [done|]. intros (b & Hb). by simplify_eq.
Qed.

Lemma contains_true p s : contains p s = true ↔ occurs p s.
Proof.
  unfold occurs. induction s as [|x s IH]; cbn [contains].
  - rewrite orb_false_r, prefix_true. split.
    + intros (b & ->). by exists "", b.
    + intros ([|??] & b & H); [by exists b|by rewrite append_cons in H].
  - rewrite orb_true_iff, prefix_true, IH. split.
    + intros [(b & ->)|(a & b & ->)]; [by exists "", b|by exists (String x a), b].
    + intros ([|y a] & b & H); [left; by exists b|right].
      rewrite append_cons in H. simplify_eq. by exists a, b.
Qed.

(** A text that shares no character with a non-empty separator cannot
    straddle it. *)
Lemma occurs_app_separator p s1 sep s2 :
  sep ≠ "" →
  (∀ a, a ∈ chars sep → a ∉ chars p) →
  occurs p (s1 +:+ sep +:+ s2) → occurs p s1 ∨ occurs p s2.
Proof.
  intros Hsep Hdisj. rewrite !occurs_chars, !chars_app.
  assert (Hne : chars sep ≠ []) by (by destruct sep).
  revert Hdisj Hne.
  generalize (chars sep) (chars p) (chars s1) (chars s2). clear.
  intros d p l1 l2 Hdisj Hne (a & b & H).
  apply app_eq_app in H as [k [[-> H]|[-> H]]].
  - (* the text starts inside [l1] *)
    symmetry in H. apply app_eq_app in H as [k' [[-> H]|[-> H]]].
    + left. by exists a, k'.
    + destruct k' as [|x k']; [left; exists a, []; by rewrite !app_nil_r|].
      destruct d as [|y d]; [done|]. simplify_eq/=.
      destruct (Hdisj x); [left|]. apply elem_of_app. right. left.
  - (* the text starts at or after the separator *)
    apply app_eq_app in H as [k' [[-> H]|[-> H]]].
    + destruct k' as [|x k']; [right; exists [], b; simpl in *; by rewrite <- H|].
      destruct p as [|y p]; [right; by exists [], l2|].
      simplify_eq/=. destruct (Hdisj x).
      * apply elem_of_app. right. left.
      * left.
    + right. by exists k', b.
Qed.

Lemma numeral_uint d : Forall numeral (chars (NilEmpty.string_of_uint d)).
Proof.
  induction d; simpl; constructor; try done; unfold numeral; simpl;
    apply list_elem_of_In; simpl; tauto.
Qed.

Lemma numeral_str n : Forall numeral (chars (str n)).
Proof.
  assert (Hz : ∀ d, Forall numeral (chars (NilZero.string_of_uint d))).
  { intros d. destruct d; try apply numeral_uint.
    repeat constructor. }
  unfold str. destruct n as [|q|q]; cbn [Z.to_int NilZero.string_of_int].
  - apply Hz.
  - apply Hz.
  - cbn [chars]. constructor; [|apply Hz].
    unfold numeral. apply list_elem_of_In. simpl. tauto.
Qed.

Lemma str_nonempty n : str n ≠ "".
Proof. unfold str. destruct n as [|p|p]; simpl; try done; by destruct (Pos.to_uint p). Qed.

(** A text without digits and minus signs lies on one side of a number. *)
Lemma occurs_app_str p s1 n s2 :
  Forall (λ a, ¬ numeral a) (chars p) →
  occurs p (s1 +:+ str n +:+ s2) → occurs p s1 ∨ occurs p s2.
Proof.
  intros Hp. apply occurs_app_separator; [apply str_nonempty|].
  intros a Ha Hin. rewrite Forall_forall in Hp. apply (Hp a Hin).
  pose proof (numeral_str n) as Hn. rewrite Forall_forall in Hn. by apply Hn.
Qed.


Lemma occurs_prefix p b : occurs p (p +:+ b).
Proof. by exists "", b. Qed.

Lemma occurs_app_r p s1 s2 : occurs p s2 → occurs p (s1 +:+ s2).
Proof.
  intros (a & b & ->). exists (s1 +:+ a), b.
  induction s1 as [|x s1 IH]; [done|]. by rewrite !append_cons, IH.
Qed.

Lemma certification_clause_no_numeral :
  Forall (λ a, ¬ numeral a) (chars certification_clause).
Proof. apply (bool_decide_unpack _). vm_compute. exact I. Qed.

Lemma internship_clause_no_numeral :
  Forall (λ a, ¬ numeral a) (chars internship_clause).
Proof. apply (bool_decide_unpack _). vm_compute. exact I. Qed.

(** Walks through the pieces of the f-string: the text searched for is
    in none of the literal pieces and cannot straddle a number. *)
Ltac refute_occurs H Hp :=
  first
    [ apply occurs_app_str in H; [|exact Hp];
      destruct H as [H|H];
      [ apply contains_true in H; vm_compute in H; discriminate H
      | refute_occurs H Hp ]
    | apply contains_true in H; vm_compute in H; discriminate H ].

Ltac find_occurs :=
  first [ apply occurs_prefix | apply occurs_app_r; find_occurs ].

Lemma certification_clause_in_statement c :
  contains certification_clause (eligibility_query c) = required_certification c.
Proof.
  destruct (required_certification c) eqn:Hc.
  - apply contains_true. unfold eligibility_query. rewrite Hc. find_occurs.
  - apply not_true_iff_false. intros H%contains_true.
    unfold eligibility_query in H. rewrite Hc in H.
    destruct (required_internship c);
      refute_occurs H certification_clause_no_numeral.
Qed.

Lemma internship_clause_in_statement c :
  contains internship_clause (eligibility_query c) = required_internship c.
Proof.
  destruct (required_internship c) eqn:Hc.
  - apply contains_true. unfold eligibility_query. rewrite Hc. find_occurs.
  - apply not_true_iff_false. intros H%contains_true.
    unfold eligibility_query in H. rewrite Hc in H.
    destruct (required_certification c);
      refute_occurs H internship_clause_no_numeral.
Qed.

(** C2: with the internship checkbox ticked every result row has
    [internship_complted] equal to [yes]; with the certification checkbox
    ticked every result row has [Certification] equal to [Yes]; and the
    text of each clause stands in the built statement exactly when its
    checkbox is ticked. *)
Theorem flags_restrict_rows_and_text c :
  (required_internship c = true → ∀ d r,
     r ∈ eligible_students c d → Eligible.internship_complted r = Some "yes")
  ∧ (required_certification c = true → ∀ d r,
     r ∈ eligible_students c d → Eligible.Certification r = Some "Yes")
  ∧ (required_certification c = false →
     ¬ occurs certification_clause (eligibility_query c))
  ∧ (required_internship c = false →
     ¬ occurs internship_clause (eligibility_query c))
  ∧ contains certification_clause (eligibility_query c) = required_certification c
  ∧ contains internship_clause (eligibility_query c) = required_internship c.
Proof.
  repeat split.
  - intros Hi d r (j & -> & _ & Hw)%elem_of_eligible_students.
    apply where_conjuncts_true in Hw as (_ & _ & Hint). by apply Hint.
  - intros Hc d r (j & -> & _ & Hw)%elem_of_eligible_students.
    apply where_conjuncts_true in Hw as (_ & Hcert & _). by apply Hcert.
  - intros Hc H%contains_true. rewrite certification_clause_in_statement in H. congruence.
  - intros Hi H%contains_true. rewrite internship_clause_in_statement in H. congruence.
  - apply certification_clause_in_statement.
  - apply internship_clause_in_statement.
Qed.


Lemma flags_restrict_rows_and_text_witness :
  Eligible.internship_complted sample_row_1 = Some "yes".
Proof.
  apply (proj1 (flags_restrict_rows_and_text default_criteria) eq_refl sample_dataset).
  rewrite eligible_students_sample. apply list_elem_of_In. simpl. tauto.
Defined.

(** ** The projected columns *)

Lemma words_go_app cur a b :
  ends_with_space a = true →
  String.words_go cur (a +:+ b) = String.words_go cur a ++ String.words b.
Proof.
  revert cur. induction a as [|x a IH]; intros cur Ha; [done|].
  rewrite append_cons. destruct a as [|y a].
  - simpl in Ha. change ("" +:+ b) with b. cbn [String.words_go]. rewrite Ha.
    cbn [String.words_go]. by rewrite app_nil_r.
  - cbn [String.words_go]. change (ends_with_space (String x (String y a)))
      with (ends_with_space (String y a)) in Ha.
    destruct (Ascii.is_space x).
    + rewrite (IH None Ha). by rewrite app_assoc.
    + by rewrite (IH _ Ha).
Qed.

Lemma until_from_app ws ws' :
  "FROM" ∈ ws → until_from (ws ++ ws') = until_from ws.
Proof.
  induction ws as [|w ws IH]; intros Hin; [by apply elem_of_nil in Hin|].
  simpl. destruct (decide (w = "FROM")); [done|].
  apply elem_of_cons in Hin as [Heq|Hin]; [done|]. by rewrite IH.
Qed.

Lemma select_words_app ws rest :
  "FROM" ∈ ws →
  match ("SELECT" :: ws) ++ rest with
  | "SELECT" :: ws' => column_name <$> until_from ws'
  | _ => []
  end = column_name <$> until_from ws.
Proof. intros Hin. simpl. by rewrite until_from_app. Qed.

(** The [SELECT] list of the built statement does not depend on the
    inputs. *)
Lemma select_list_eligibility_query c :
  select_list (eligibility_query c) = documented_columns.
Proof.
  unfold select_list, eligibility_query, String.words.
  rewrite words_go_app by reflexivity.
  match goal with
  | |- context [String.words_go None ?lit] =>
      let ws := eval vm_compute in (String.words_go None lit) in
      change (String.words_go None lit) with ws
  end.
  rewrite select_words_app by (apply (bool_decide_unpack _); vm_compute; exact I).
  vm_compute. reflexivity.
Qed.

(** C10: whatever the thresholds and flags, the built statement projects
    the same twenty-two columns, so the result frame has that header,
    every row of it has twenty-two cells, and the CSV export starts with
    the same header line. *)
Theorem projection_independent_of_criteria c d :
  select_list (eligibility_query c) = documented_columns
  ∧ length documented_columns = 22%nat
  ∧ columns (eligible_frame c d) = documented_columns
  ∧ Forall (λ row, length row = 22%nat) (rows (eligible_frame c d))
  ∧ csv_header (eligible_frame c d) = String.concat "," documented_columns.
Proof.
  pose proof (select_list_eligibility_query c) as Hsel.
  split; [exact Hsel|]. split; [reflexivity|]. split; [exact Hsel|]. split.
  - apply Forall_fmap, Forall_true. intros r. reflexivity.
  - unfold csv_header, eligible_frame, columns. by rewrite Hsel.
Qed.


(** ** The page inputs *)

Lemma threshold_filter_inputs ui t :
  threshold t (filter_inputs ui) = st_slider ui (slider_of t).
Proof. by destruct t. Qed.

Lemma st_slider_in_range ui w :
  min_value w ≤ value w ≤ max_value w →
  min_value w ≤ st_slider ui w ≤ max_value w.
Proof. unfold st_slider. destruct (picked ui !! label w); lia. Qed.

(** C9: each slider has the documented minimum, maximum and default and
    the two checkboxes the documented defaults; whatever the user does, a
    threshold stays within its range, every value of the range can be
    picked, and an untouched page yields the defaults. *)
Theorem slider_ranges_and_defaults :
  (∀ t, (min_value (slider_of t), max_value (slider_of t), value (slider_of t))
        = documented_range t)
  ∧ box_value certification_box = false
  ∧ box_value internship_box = true
  ∧ (∀ ui t, (documented_range t).1.1 ≤ threshold t (filter_inputs ui)
             ≤ (documented_range t).1.2)
  ∧ (∀ t v, (documented_range t).1.1 ≤ v ≤ (documented_range t).1.2 →
            ∃ ui, threshold t (filter_inputs ui) = v)
  ∧ (∀ t, threshold t (filter_inputs untouched) = (documented_range t).2)
  ∧ required_certification (filter_inputs untouched) = false
  ∧ required_internship (filter_inputs untouched) = true.
Proof.
  assert (Hdoc : ∀ t, (min_value (slider_of t), max_value (slider_of t),
                       value (slider_of t)) = documented_range t)
    by (by intros []).
  split; [exact Hdoc|]. split; [reflexivity|]. split; [reflexivity|]. split.
  { intros ui t. rewrite threshold_filter_inputs, <- Hdoc. simpl.
    apply st_slider_in_range. destruct t; simpl; lia. }
  split.
  { intros t v. rewrite <- Hdoc. simpl. intros Hv.
    exists {| picked := {[ label (slider_of t) := v ]}; ticked := ∅ |}.
    rewrite threshold_filter_inputs. unfold st_slider. simpl.
    rewrite lookup_singleton_eq. lia. }
  split; [by intros []|]. split; reflexivity.
Qed.

Lemma slider_ranges_and_defaults_witness :
  ∃ ui, threshold Presentation (filter_inputs ui) = 10.
Proof.
  apply (proj1 (proj2 (proj2 (proj2 (proj2 slider_ranges_and_defaults))))
           Presentation 10).
  simpl. lia.
Defined.

(** ** Determinism of the builder *)

Lemma criteria_eq c1 c2 :
  (∀ t, threshold t c1 = threshold t c2) →
  required_certification c1 = required_certification c2 →
  required_internship c1 = required_internship c2 →
  c1 = c2.
Proof.
  intros Ht Hc Hi. destruct c1, c2. simpl in *.
  pose proof (Ht ProblemSolved). pose proof (Ht AssesmentCompleted).
  pose proof (Ht MiniProject). pose proof (Ht LatestProjectScore).
  pose proof (Ht Communication). pose proof (Ht TeamWork).
  pose proof (Ht Presentation). pose proof (Ht Leadership).
  pose proof (Ht CriticalThinking). pose proof (Ht InterpersonalSkill).
  pose proof (Ht MockInterviewScore). simpl in *. by subst.
Qed.

(** C8: the builder is a function of the thirteen inputs alone (it takes
    no page state and returns none): two runs whose eleven thresholds and
    two flags agree build the same text, the statement denotes the same
    rows and the same frame on the same dataset, and the page runs from
    the same state against the same store end in the same outcome. *)
Theorem builder_deterministic c1 c2 :
  (∀ t, threshold t c1 = threshold t c2) →
  required_certification c1 = required_certification c2 →
  required_internship c1 = required_internship c2 →
  eligibility_query c1 = eligibility_query c2
  ∧ (∀ d, eligible_students c1 d = eligible_students c2 d)
  ∧ (∀ d, eligible_frame c1 d = eligible_frame c2 d)
  ∧ (∀ Conn (connect : string → Try Conn) read ui1 ui2 w,
       filter_inputs ui1 = c1 → filter_inputs ui2 = c2 →
       filter_students connect read ui1 w = filter_students connect read ui2 w).
Proof.
  intros Ht Hc Hi. rewrite (criteria_eq c1 c2 Ht Hc Hi).
  repeat split. intros Conn connect read ui1 ui2 w H1 H2.
  unfold filter_students. by rewrite H1, H2.
Qed.

Lemma builder_deterministic_witness :
  eligibility_query default_criteria
  = eligibility_query
      {| min_problem_solved := 20; min_assesment_completed := 3;
         min_mini_project := 1; min_latest_project_score := 60;
         required_certification := false; min_communication := 65;
         min_team_work := 25; min_presentation := 5; min_leadership := 2;
         min_critical_thinking := 2; min_interpersonal_skill := 60;
         min_mock_interview_score := 70; required_internship := true |}.
Proof.
  apply (builder_deterministic default_criteria); [by intros []|reflexivity..].
Defined.

(** ** The catalog *)

(** The catalog does not have fourteen entries. *)
Lemma catalog_not_fourteen : length (keys SQL_QUERIES) ≠ 14%nat.
Proof. vm_compute. discriminate. Qed.

(** C6, amended: the catalog defines exactly thirteen report names, all
    different, and lookup by each of them returns a non-empty statement. *)
Theorem catalog_thirteen_reports :
  length (keys SQL_QUERIES) = 13%nat
  ∧ NoDup (keys SQL_QUERIES)
  ∧ ∀ name, name ∈ keys SQL_QUERIES →
      ∃ q, dict_get SQL_QUERIES name = Some q ∧ q ≠ "".
Proof.
  split; [reflexivity|]. split.
  - apply (bool_decide_unpack _). vm_compute. exact I.
  - intros name Hin. apply list_elem_of_In in Hin. simpl in Hin.
    repeat (destruct Hin as [<-|Hin]; [eexists; split; [vm_compute; reflexivity|discriminate]|]).
    destruct Hin.
Qed.

Lemma catalog_thirteen_reports_witness :
  ∃ q, dict_get SQL_QUERIES "Average Age of Students" = Some q ∧ q ≠ "".
Proof.
  apply (proj2 (proj2 catalog_thirteen_reports)).
  apply list_elem_of_In. simpl. tauto.
Defined.


(** ** The executor *)

Lemma bind_show {Conn B} (e : Element) (k : () → App Conn B) (w : World Conn) :
  (show e ≫= k) w = k () {| conn := conn w; page := page w ++ [e] |}.
Proof. reflexivity. Qed.

Lemma bind_returned {Conn A B} (m : App Conn A) (k : A → App Conn B) w a w' :
  m w = Returned a w' → (m ≫= k) w = k a w'.
Proof. intros H. unfold mbind, App_bind. by rewrite H. Qed.

Section Executor.
Context {Conn : Type}.
Variable connect : string → Try Conn.
Variable read : string → Conn → option (list Cell) → Try DataFrame.

(** With the connection in the cache, [get_connection] returns it and
    changes nothing. *)
Lemma get_connection_cached self (w : World Conn) h :
  conn w = Some h → get_connection connect self w = Returned h w.
Proof. intros Hc. unfold get_connection, mbind, App_bind, cached_conn. by rewrite Hc. Qed.

(** Without one, a successful [sqlite3.connect] is cached and greeted. *)
Lemma get_connection_opened self (w : World Conn) h :
  conn w = None → connect (db_name self) = Value h →
  get_connection connect self w
  = Returned h {| conn := Some h; page := greeted self w |}.
Proof.
  intros Hc Hopen. unfold get_connection, mbind, App_bind, cached_conn, greeted.
  rewrite Hc, Hopen. reflexivity.
Qed.

(** A [sqlite3.Error] from [sqlite3.connect] halts the script. *)
Lemma get_connection_halts self (w : World Conn) msg :
  conn w = None → connect (db_name self) = Raise (Sqlite3Error msg) →
  get_connection connect self w
  = Stopped {| conn := None;
               page := page w ++ [StError ("Error connecting to database: " +:+ msg)] |}.
Proof.
  intros Hc Hopen. unfold get_connection, mbind, App_bind, cached_conn.
  rewrite Hc, Hopen. simpl. by rewrite Hc.
Qed.

(** When [sqlite3.connect] raises [sqlite3.Error], so does the executor's
    first step: the script halts inside [execute_query]. *)
Lemma execute_query_stops self q params (w : World Conn) msg :
  conn w = None → connect (db_name self) = Raise (Sqlite3Error msg) →
  execute_query connect read self q params w
  = Stopped {| conn := None;
               page := page w ++ [StError ("Error connecting to database: " +:+ msg)] |}.
Proof.
  intros Hc Hopen. unfold execute_query, mbind, App_bind.
  by rewrite (get_connection_halts _ _ _ Hc Hopen).
Qed.

(** With the connection cached or newly opened, the executor returns:
    the frame the backend read, or the empty frame and a diagnostic. *)
Lemma execute_query_connected self q params (w : World Conn) h :
  conn w = Some h ∨ (conn w = None ∧ connect (db_name self) = Value h) →
  ∃ df w',
    execute_query connect read self q params w = Returned df w'
    ∧ conn w' = Some h
    ∧ ((∃ p, read q h p = Value df ∧ page w' = greeted self w)
       ∨ (∃ p e, read q h p = Raise e ∧ df = empty_frame
                 ∧ page w' = greeted self w ++ [StError (diagnostic e)])).
Proof.
  intros Hconn.
  assert (Hget : ∃ w1, get_connection connect self w = Returned h w1
                       ∧ conn w1 = Some h ∧ page w1 = greeted self w).
  { destruct Hconn as [Hc|[Hc Hopen]].
    - exists w. rewrite (get_connection_cached _ _ _ Hc).
      unfold greeted. by rewrite Hc.
    - eexists. rewrite (get_connection_opened _ _ _ Hc Hopen). done. }
  destruct Hget as (w1 & Hget & Hc1 & Hp1).
  unfold execute_query, mbind, App_bind. rewrite Hget.
  set (p := match params with Some (_ :: _) => params | _ => None end).
  assert (Hcall : match params with
                  | Some (_ :: _) => read q h params
                  | _ => read q h None
                  end = read q h p) by (by destruct params as [[|??]|]).
  rewrite Hcall. destruct (read q h p) as [df|e] eqn:Hread.
  - exists df, w1. split; [done|]. split; [done|]. left. by exists p.
  - destruct e as [msg|msg|msg]; simpl; eexists _, _;
      (split; [reflexivity|]); simpl; (split; [done|]);
      right; exists p; eexists; (split; [exact Hread|]);
      (split; [done|]); by rewrite Hp1.
Qed.

(** C5, amended: when the connection is cached or can be opened, the
    executor returns for every statement: either the frame the backend
    read, with nothing added to the page but the greeting of a new
    connection, or, when the backend raised, the empty frame with the
    diagnostic shown by [st.error].  When the connection is not cached
    and [sqlite3.connect] raises [sqlite3.Error], the executor shows the
    connection error and halts the script instead of returning. *)
Theorem execute_query_returns self q params (w : World Conn) :
  (∀ h, conn w = Some h ∨ (conn w = None ∧ connect (db_name self) = Value h) →
     ∃ df w',
       execute_query connect read self q params w = Returned df w'
       ∧ conn w' = Some h
       ∧ ((∃ p, read q h p = Value df ∧ page w' = greeted self w)
          ∨ (∃ p e, read q h p = Raise e ∧ df = empty_frame
                    ∧ page w' = greeted self w ++ [StError (diagnostic e)])))
  ∧ (∀ msg, conn w = None → connect (db_name self) = Raise (Sqlite3Error msg) →
       execute_query connect read self q params w
       = Stopped {| conn := None;
                    page := page w ++ [StError ("Error connecting to database: " +:+ msg)] |}).
Proof.
  split.
  - intros h. apply execute_query_connected.
  - intros msg. apply execute_query_stops.
Qed.
End Executor.

Lemma execute_query_returns_witness :
  ∃ df w',
    execute_query (λ _, Value sample_dataset)
      (pd_read_sql_query (λ _ d, Value (eligible_frame default_criteria d)))
      db_manager (eligibility_query default_criteria) None fresh = Returned df w'
    ∧ conn w' = Some sample_dataset
    ∧ ((∃ p, pd_read_sql_query (λ _ d, Value (eligible_frame default_criteria d))
               (eligibility_query default_criteria) sample_dataset p = Value df
             ∧ page w' = greeted db_manager (@fresh Dataset))
       ∨ (∃ p e, pd_read_sql_query (λ _ d, Value (eligible_frame default_criteria d))
                   (eligibility_query default_criteria) sample_dataset p = Raise e
                 ∧ df = empty_frame
                 ∧ page w' = greeted db_manager (@fresh Dataset) ++ [StError (diagnostic e)])).
Proof.
  apply (proj1 (execute_query_returns (λ _, Value sample_dataset)
           (pd_read_sql_query (λ _ d, Value (eligible_frame default_criteria d)))
           db_manager (eligibility_query default_criteria) None fresh) sample_dataset).
  right. split; reflexivity.
Defined.

(** The executor does not return for every statement and every state of
    the store: when the store file cannot be opened, [get_connection]
    halts the script inside [execute_query], so the caller gets neither a
    frame nor an empty frame. *)
Lemma execute_query_halts_without_store :
  execute_query unreachable_store (pd_read_sql_query (λ _ _, Value empty_frame))
    db_manager "SELECT COUNT(*) FROM Students;" None fresh
  = Stopped {| conn := None;
               page := [StError "Error connecting to database: unable to open database file"] |}
  ∧ ¬ ∃ df w',
      execute_query unreachable_store (pd_read_sql_query (λ _ _, Value empty_frame))
        db_manager "SELECT COUNT(*) FROM Students;" None fresh
      = Returned df w'.
Proof.
  split; [reflexivity|]. intros (df & w' & H). vm_compute in H. discriminate H.
Qed.

(** ** The built statement and the store *)

Lemma lex_run_app st a b : lex_run st (a +:+ b) = lex_run (lex_run st a) b.
Proof.
  revert st. induction a as [|x a IH]; intros st; [done|].
  rewrite append_cons. simpl. apply IH.
Qed.

Lemma lex_run_uint d : lex_run LTop (NilEmpty.string_of_uint d) = LTop.
Proof. induction d; simpl; done. Qed.

(** A number, with or without sign, leaves the tokenizer between tokens. *)
Lemma lex_run_str n : lex_run LTop (str n) = LTop.
Proof.
  assert (Hz : ∀ d, lex_run LTop (NilZero.string_of_uint d) = LTop)
    by (intros []; try done; apply lex_run_uint).
  assert (Hm : ∀ d, lex_run LMinus (NilZero.string_of_uint d) = LTop)
    by (intros []; try done; apply lex_run_uint).
  unfold str. destruct n as [|q|q]; cbn [Z.to_int NilZero.string_of_int].
  - apply Hz.
  - apply Hz.
  - cbn [lex_run]. apply Hm.
Qed.

(** The built statement passes the tokenizer for every input. *)
Lemma eligibility_query_tokenized c : tokenizes (eligibility_query c) = true.
Proof.
  unfold tokenizes, eligibility_query.
  destruct (required_certification c), (required_internship c);
    rewrite !lex_run_app;
    repeat first
      [ rewrite lex_run_str
      | match goal with
        | |- context [lex_run LTop ?s] =>
            let r := eval vm_compute in (lex_run LTop s) in
            match r with LTop => change (lex_run LTop s) with LTop end
        end ];
    reflexivity.
Qed.

(** With the connection cached and a store that evaluates the built
    statement to what it denotes, the executor hands the page the frame
    of the eligible students and shows nothing. *)
Lemma execute_query_eligible (connect : string → Try Dataset)
    (eval : string → Dataset → Try DataFrame) c d shown :
  eval (eligibility_query c) d = Value (eligible_frame c d) →
  execute_query connect (pd_read_sql_query eval) db_manager (eligibility_query c) None
    {| conn := Some d; page := shown |}
  = Returned (eligible_frame c d) {| conn := Some d; page := shown |}.
Proof.
  intros Heval. unfold execute_query.
  rewrite (bind_returned _ _ _ _ _
             (get_connection_cached connect db_manager
                {| conn := Some d; page := shown |} d eq_refl)).
  unfold pd_read_sql_query. by rewrite eligibility_query_tokenized, Heval.
Qed.

(** ** The histogram report *)

(** The [CASE] expression puts 49 under [0-49 (Poor)], 50 under
    [50-69 (Average)], 90 under [90-100 (Excellent)], and NULL and every
    score outside 0..100 under [N/A]. *)
Lemma score_range_buckets :
  score_range (Some 49) = "0-49 (Poor)"
  ∧ score_range (Some 50) = "50-69 (Average)"
  ∧ score_range (Some 90) = "90-100 (Excellent)"
  ∧ score_range None = "N/A"
  ∧ ∀ v, v < 0 ∨ 100 < v → score_range (Some v) = "N/A".
Proof.
  repeat split; try reflexivity.
  intros v Hv. unfold score_range.
  repeat (rewrite bool_decide_eq_false_2 by lia). done.
Qed.

(** On the sample the labelled counts would be one poor and two good. *)
Example score_histogram_sample :
  score_histogram sample_dataset = [("0-49 (Poor)", 1%nat); ("70-89 (Good)", 2%nat)].
Proof. vm_compute. reflexivity. Qed.

(** The two [#] remarks of the statement text are no tokens. *)
Lemma distribution_query_not_tokenized : tokenizes distribution_query = false.
Proof. vm_compute. reflexivity. Qed.

(** The other twelve statements of the catalog pass the tokenizer. *)
Lemma other_reports_tokenized :
  Forall (λ kv, kv.1 ≠ "Distribution of Mock Interview Scores" → tokenizes kv.2 = true)
         SQL_QUERIES.
Proof. apply (bool_decide_unpack _). vm_compute. exact I. Qed.

(** C7, on the code as it is: the store refuses the histogram statement at its first
    [#], whatever the dataset; the executor turns that into the empty
    frame and a diagnostic, and the page reports that no data came back
    instead of the labelled counts. *)
Theorem distribution_report_refused (connect : string → Try Dataset)
    (eval : string → Dataset → Try DataFrame) (d : Dataset) (shown : list Element) :
  execute_query connect (pd_read_sql_query eval) db_manager distribution_query None
    {| conn := Some d; page := shown |}
  = Returned empty_frame
      {| conn := Some d;
         page := shown ++
           [StError ("Error executing query: Execution failed on sql '"
                     +:+ distribution_query +:+ "': unrecognized token")] |}
  ∧ view_insights connect (pd_read_sql_query eval)
      "Distribution of Mock Interview Scores" {| conn := Some d; page := shown |}
    = Returned ()
        {| conn := Some d;
           page := shown ++
             [StCode distribution_query;
              StError ("Error executing query: Execution failed on sql '"
                       +:+ distribution_query +:+ "': unrecognized token");
              StInfo "No data returned for this insight query."] |}.
Proof.
  assert (Hread : ∀ c p, pd_read_sql_query eval distribution_query c p
    = Raise (PandasDatabaseError ("Execution failed on sql '"
               +:+ distribution_query +:+ "': unrecognized token"))).
  { intros c p. unfold pd_read_sql_query.
    by rewrite distribution_query_not_tokenized. }
  assert (Hexec : ∀ els,
    execute_query connect (pd_read_sql_query eval) db_manager distribution_query None
      {| conn := Some d; page := els |}
    = Returned empty_frame
        {| conn := Some d;
           page := els ++
             [StError ("Error executing query: Execution failed on sql '"
                       +:+ distribution_query +:+ "': unrecognized token")] |}).
  { intros els. unfold execute_query, mbind, App_bind.
    rewrite (get_connection_cached _ _ _ d) by done.
    rewrite Hread. reflexivity. }
  split; [apply Hexec|].
  unfold view_insights.
  change (dict_get SQL_QUERIES "Distribution of Mock Interview Scores")
    with (Some distribution_query).
  rewrite bool_decide_eq_false_2 by done.
  rewrite bind_show. cbn [conn page].
  rewrite (bind_returned _ _ _ _ _ (Hexec _)).
  change (empty empty_frame) with true. cbn [negb]. unfold show. cbn [conn page].
  by rewrite <- !app_assoc.
Qed.


(** * Further properties of the code *)

(** ** The filter statement: completeness, tightening, one row per student *)

(** X1: Every row of the inner join that meets the eleven bounds, and the
    clause of each ticked checkbox, is in the filter result: the
    statement drops no eligible student. *)
Theorem eligible_students_complete c d j :
  inner_join_row d j →
  (∀ t, at_least (metric t (select j)) (threshold t c)) →
  (required_certification c = true → Programming.Certification (P j) = Some "Yes") →
  (required_internship c = true → Placements.internship_complted (PL j) = Some "yes") →
  select j ∈ eligible_students c d.
Proof.
  intros Hj Ht Hc Hi. apply elem_of_eligible_students. exists j.
  split; [done|]. split; [done|]. by apply where_conjuncts_true.
Qed.

Lemma eligible_students_complete_witness :
  select {| S := {| Students.student_id := Some 2; Students.name := Some "Ravi";
                    Students.age := Some 23; Students.gender := Some "Male";
                    Students.course_batch := Some "Batch B";
                    Students.city := Some "Delhi" |};
            P := {| Programming.student_id := Some 2; Programming.problem_solved := Some 45;
                    Programming.assesment_completed := Some 8;
                    Programming.Mini_project := Some 3;
                    Programming.latest_project_score := Some 90;
                    Programming.Certification := Some "Yes" |};
            SS := {| SoftSkills.student_id := Some 2; SoftSkills.communication := Some 70;
                     SoftSkills.team_work := Some 30; SoftSkills.presentation := Some 6;
                     SoftSkills.leadership := Some 2; SoftSkills.Critical_thinking := Some 3;
                     SoftSkills.interpersonal_skill := Some 65 |};
            PL := {| Placements.student_id := Some 2;
                     Placements.mock_interview_score := Some 80;
                     Placements.internship_complted := Some "yes";
                     Placements.Placement_status := Some "Placed";
                     Placements.Company_name := Some "Acme";
                     Placements.placement_package := Some 600000 |} |}
  ∈ eligible_students default_criteria sample_dataset.
Proof.
  apply eligible_students_complete.
  - unfold inner_join_row. simpl.
    repeat split; try (apply list_elem_of_In; simpl; tauto).
    exists 2. done.
  - intros []; eexists; (split; [reflexivity|]); vm_compute; discriminate.
  - discriminate.
  - reflexivity.
Defined.

Lemma stricter_where_conjuncts c c' j :
  stricter c c' →
  Forall sql_true (where_conjuncts c' j) → Forall sql_true (where_conjuncts c j).
Proof.
  intros (Hle & Hcert & Hint). rewrite !where_conjuncts_true.
  intros (Ht & Hc & Hi). split; [|by auto].
  intros t. destruct (Ht t) as (v & Hv & Hbound).
  exists v. split; [done|]. specialize (Hle t). lia.
Qed.

Lemma length_filter_impl {A} (P Q : A → Prop)
    `{∀ x, Decision (P x)} `{∀ x, Decision (Q x)} (l : list A) :
  (∀ x, P x → Q x) → (length (filter P l) ≤ length (filter Q l))%nat.
Proof.
  intros HPQ. induction l as [|x l IH]; [done|].
  rewrite !filter_cons. destruct (decide (P x)) as [HP|HP].
  - rewrite decide_True by auto. simpl. lia.
  - destruct (decide (Q x)); simpl; lia.
Qed.

Lemma length_eligible_students c d :
  length (eligible_students c d)
  = length (filter (λ j, sql_true (where_clause c j)) (from_clause d)).
Proof.
  unfold eligible_students, eligible_joined.
  by rewrite length_fmap, merge_sort_Permutation.
Qed.

(** X2: Tightening the criteria in any way (raising several thresholds,
    ticking checkboxes) only removes rows, and the number of rows found
    does not grow. *)
Theorem stricter_criteria_fewer_rows c c' d :
  stricter c c' →
  (∀ r, r ∈ eligible_students c' d → r ∈ eligible_students c d)
  ∧ (length (eligible_students c' d) ≤ length (eligible_students c d))%nat.
Proof.
  intros Hs. split.
  - intros r. rewrite !elem_of_eligible_students.
    intros (j & -> & Hj & Hw). exists j. split; [done|]. split; [done|].
    by eapply stricter_where_conjuncts.
  - rewrite !length_eligible_students.
    apply length_filter_impl. intros j.
    unfold where_clause. rewrite !sql_and_chain_true.
    by apply stricter_where_conjuncts.
Qed.


Lemma stricter_criteria_fewer_rows_witness :
  (∀ r, r ∈ eligible_students
            {| min_problem_solved := 20; min_assesment_completed := 3;
               min_mini_project := 1; min_latest_project_score := 60;
               required_certification := true; min_communication := 65;
               min_team_work := 25; min_presentation := 5; min_leadership := 2;
               min_critical_thinking := 2; min_interpersonal_skill := 60;
               min_mock_interview_score := 75; required_internship := true |}
            sample_dataset →
        r ∈ eligible_students default_criteria sample_dataset)
  ∧ (length (eligible_students
               {| min_problem_solved := 20; min_assesment_completed := 3;
                  min_mini_project := 1; min_latest_project_score := 60;
                  required_certification := true; min_communication := 65;
                  min_team_work := 25; min_presentation := 5; min_leadership := 2;
                  min_critical_thinking := 2; min_interpersonal_skill := 60;
                  min_mock_interview_score := 75; required_internship := true |}
               sample_dataset)
     ≤ length (eligible_students default_criteria sample_dataset))%nat.
Proof.
  apply stricter_criteria_fewer_rows.
  split; [intros []; vm_compute; discriminate|]. split; [done|reflexivity].
Defined.

(** In a table with one row per identifier, at most one row joins a
    given identifier. *)
Lemma filter_id_at_most_one {A} (f : A → option Z) (k : option Z) (l : list A) :
  NoDup (f <$> l) →
  (length (filter (λ x, sql_true (sql_eq k (f x))) l) ≤ 1)%nat.
Proof.
  induction l as [|x l IH]; [simpl; lia|].
  rewrite fmap_cons, NoDup_cons. intros [Hx Hl]. rewrite filter_cons.
  destruct (decide (sql_true (sql_eq k (f x)))) as [Hk|Hk]; [|by apply IH].
  apply sql_eq_true in Hk as (v & -> & Hfx).
  destruct (filter (λ y, sql_true (sql_eq (Some v) (f y))) l) as [|y ys] eqn:Hf;
    [simpl; lia|].
  exfalso. assert (Hy : y ∈ filter (λ y, sql_true (sql_eq (Some v) (f y))) l)
    by (rewrite Hf; left).
  apply list_elem_of_filter in Hy as [Hy Hyl].
  apply sql_eq_true in Hy as (w & [= <-] & Hfy).
  apply Hx. rewrite Hfx, <- Hfy. by apply list_elem_of_fmap_2.
Qed.

Lemma from_clause_ids_sublist d :
  NoDup (Programming.student_id <$> programming d) →
  NoDup (SoftSkills.student_id <$> softskills d) →
  NoDup (Placements.student_id <$> placements d) →
  ((λ j, Students.student_id (S j)) <$> from_clause d)
    `sublist_of` (Students.student_id <$> students d).
Proof.
  intros Hp Hss Hpl. unfold from_clause.
  induction (students d) as [|s l IH]; [done|].
  rewrite bind_cons, fmap_app, fmap_cons.
  apply (sublist_app _ [Students.student_id s]); [|exact IH].
  pose proof (filter_id_at_most_one Programming.student_id
                (Students.student_id s) (programming d) Hp) as Lp.
  pose proof (filter_id_at_most_one SoftSkills.student_id
                (Students.student_id s) (softskills d) Hss) as Lss.
  pose proof (filter_id_at_most_one Placements.student_id
                (Students.student_id s) (placements d) Hpl) as Lpl.
  destruct (filter _ (programming d)) as [|p [|??]]; simpl in Lp; [|clear Lp|lia].
  { apply sublist_nil_l. }
  destruct (filter _ (softskills d)) as [|ss [|??]]; simpl in Lss; [|clear Lss|lia].
  { apply sublist_nil_l. }
  destruct (filter _ (placements d)) as [|pl [|??]]; simpl in Lpl; [|clear Lpl|lia].
  { apply sublist_nil_l. }
  done.
Qed.

(** X3: When every table holds one row per identifier, every student
    appears at most once in the filter result. *)
Theorem one_result_row_per_student c d :
  one_row_per_student d →
  NoDup (Eligible.student_id <$> eligible_students c d).
Proof.
  intros (Hs & Hp & Hss & Hpl).
  unfold eligible_students, eligible_joined. rewrite <- list_fmap_compose.
  rewrite merge_sort_Permutation.
  eapply sublist_NoDup; [exact Hs|].
  etrans; [|by apply from_clause_ids_sublist].
  apply (fmap_sublist _), sublist_filter.
Qed.

Lemma one_result_row_per_student_witness :
  NoDup (Eligible.student_id <$> eligible_students default_criteria sample_dataset).
Proof.
  apply one_result_row_per_student.
  repeat split; apply (bool_decide_unpack _); vm_compute; exact I.
Defined.


(** ** The connection cache and the executor *)

(** With the connection cached the executor does not touch
    [sqlite3.connect]: it returns the frame read, or the empty frame
    after one diagnostic. *)
Lemma execute_query_cached {Conn} (connect : string → Try Conn)
    (read : string → Conn → option (list Cell) → Try DataFrame)
    self q (w : World Conn) h :
  conn w = Some h →
  execute_query connect read self q None w
  = match read q h None with
    | Value df => Returned df w
    | Raise e =>
        Returned empty_frame
          {| conn := conn w; page := page w ++ [StError (diagnostic e)] |}
    end.
Proof.
  intros Hc. unfold execute_query.
  rewrite (bind_returned _ _ _ _ _ (get_connection_cached connect self w h Hc)).
  destruct (read q h None) as [df|[msg|msg|msg]]; reflexivity.
Qed.

Lemma get_connection_returned {Conn} (connect : string → Try Conn)
    self (w w' : World Conn) h :
  get_connection connect self w = Returned h w' →
  conn w' = Some h ∧ ∀ h0, conn w = Some h0 → h = h0 ∧ w' = w.
Proof.
  intros Hget. destruct (conn w) as [h0|] eqn:Hw.
  - rewrite (get_connection_cached _ _ _ _ Hw) in Hget. simplify_eq.
    split; [done|]. by intros ? [= <-].
  - destruct (connect (db_name self)) as [h1|[msg|msg|msg]] eqn:Hopen.
    + rewrite (get_connection_opened _ _ _ _ Hw Hopen) in Hget. by simplify_eq.
    + unfold get_connection, mbind, App_bind, cached_conn in Hget.
      rewrite Hw, Hopen in Hget. done.
    + rewrite (get_connection_halts _ _ _ _ Hw Hopen) in Hget. done.
    + unfold get_connection, mbind, App_bind, cached_conn in Hget.
      rewrite Hw, Hopen in Hget. done.
Qed.






(** ** The two pages *)

Lemma dict_get_keys (d : list (string * string)) name :
  name ∈ keys d → ∃ q, dict_get d name = Some q.
Proof.
  unfold keys. induction d as [|[k v] d IH]; simpl.
  - intros Hin. by apply elem_of_nil in Hin.
  - intros Hin. destruct (decide (k = name)); [by eexists|].
    apply elem_of_cons in Hin as [->|Hin]; [done|]. by apply IH.
Qed.

Lemma keys_not_blank : "" ∉ keys SQL_QUERIES.
Proof. apply (bool_decide_unpack _). vm_compute. exact I. Qed.








(** X9: The chart dispatch never reaches for a column the frame lacks: a bar
    chart is picked only when both its index and its value column are
    among the frame's columns, the metric only when the frame has
    [avg_soft_skills_score], and at most one chart or metric is shown. *)
Theorem visualization_columns_exist df :
  (∀ index column, StBarChart index column ∈ visualization df →
     index ∈ columns df ∧ column ∈ columns df)
  ∧ (∀ label, StMetric label ∈ visualization df →
       "avg_soft_skills_score" ∈ columns df)
  ∧ (length (visualization df) ≤ 2)%nat.
Proof.
  unfold visualization. cbv zeta.
  repeat match goal with
         | |- context [if ?b then _ else _] =>
             let Hb := fresh "Hb" in
             destruct b eqn:Hb;
             [ first [ apply andb_true_iff in Hb as [?%bool_decide_eq_true ?%bool_decide_eq_true]
                     | apply bool_decide_eq_true in Hb ]
             | clear Hb ]
         end;
    (split; [|split]);
    try (simpl; lia);
    intros;
    repeat match goal with
           | H : _ ∈ [] |- _ => by apply elem_of_nil in H
           | H : _ ∈ _ :: _ |- _ => apply elem_of_cons in H as [H|H]
           end; simplify_eq; done.
Qed.


(** ** The statement text determines the inputs *)

Lemma str_inj n m : str n = str m → n = m.
Proof.
  assert (Hisi : ∀ z, NilZero.int_of_string (str z) = Some (Z.to_int z)).
  { intros z. unfold str. apply NilZero.isi.
    - destruct z as [|p|p]; simpl; try done.
      intros [= Hp]. by apply (DecimalPos.Unsigned.to_uint_nonnil p).
    - destruct z as [|p|p]; simpl; try done.
      intros [= Hp]. by apply (DecimalPos.Unsigned.to_uint_nonnil p). }
  intros Heq. apply DecimalZ.to_int_inj.
  pose proof (Hisi n) as Hn. rewrite Heq, Hisi in Hn. by simplify_eq.
Qed.

Lemma starts_plain_app a b : starts_plain a = true → starts_plain (a +:+ b) = true.
Proof. by destruct a. Qed.

(** Two numbers followed by plain text: equal texts have equal numbers
    and equal rests. *)
Lemma numeral_prefix_split d1 d2 r1 r2 :
  Forall numeral (chars d1) → Forall numeral (chars d2) →
  starts_plain r1 = true → starts_plain r2 = true →
  d1 +:+ r1 = d2 +:+ r2 → d1 = d2 ∧ r1 = r2.
Proof.
  revert d2. induction d1 as [|a d1 IH]; intros [|b d2] H1 H2 Hr1 Hr2 Heq.
  - done.
  - change ("" +:+ r1) with r1 in Heq. rewrite append_cons in Heq. subst r1.
    simpl in Hr1. apply bool_decide_eq_true in Hr1.
    simpl in H2. by apply Forall_cons in H2 as [? _].
  - change ("" +:+ r2) with r2 in Heq. rewrite append_cons in Heq. subst r2.
    simpl in Hr2. apply bool_decide_eq_true in Hr2.
    simpl in H1. by apply Forall_cons in H1 as [? _].
  - rewrite !append_cons in Heq. injection Heq as -> Heq.
    simpl in H1, H2. apply Forall_cons in H1 as [_ H1]. apply Forall_cons in H2 as [_ H2].
    destruct (IH d2 H1 H2 Hr1 Hr2 Heq) as [-> ->]. done.
Qed.

(** X10: Different settings of the thirteen inputs never build the same
    statement: the text determines every threshold and both flags. *)
Theorem eligibility_query_inj c1 c2 :
  eligibility_query c1 = eligibility_query c2 → c1 = c2.
Proof.
  unfold eligibility_query. intros H.
  do 11 (apply (inj (String.app _)) in H;
         apply numeral_prefix_split in H as [?%str_inj H];
         [|apply numeral_str..|by apply starts_plain_app|by apply starts_plain_app]).
  apply (inj (String.app _)) in H.
  assert (Hflags : required_certification c1 = required_certification c2
                   ∧ required_internship c1 = required_internship c2).
  { destruct (required_certification c1), (required_certification c2),
      (required_internship c1), (required_internship c2);
      try done; vm_compute in H; discriminate H. }
  destruct Hflags. apply criteria_eq; [intros []; done|done|done].
Qed.


Lemma eligibility_query_inj_witness :
  default_criteria
  = {| min_problem_solved := 20; min_assesment_completed := 3;
       min_mini_project := 1; min_latest_project_score := 60;
       required_certification := false; min_communication := 65;
       min_team_work := 25; min_presentation := 5; min_leadership := 2;
       min_critical_thinking := 2; min_interpersonal_skill := 60;
       min_mock_interview_score := 70; required_internship := true |}.
Proof. apply eligibility_query_inj. vm_compute. reflexivity. Defined.

(** ** Reports of the catalog *)

Lemma sql_le_total x y : sql_le x y ∨ sql_le y x.
Proof. destruct x, y; simpl; auto; lia. Qed.

Lemma sql_le_trans x y z : sql_le x y → sql_le y z → sql_le x z.
Proof. destruct x, y, z; simpl; auto; try lia; done. Qed.

Global Instance by_mock_desc_total : Total by_mock_desc.
Proof. intros a b. apply sql_le_total. Qed.
Global Instance by_mock_desc_trans : Transitive by_mock_desc.
Proof. intros a b c Hab Hbc. by eapply sql_le_trans. Qed.
Global Instance by_project_desc_total : Total by_project_desc.
Proof. intros a b. apply sql_le_total. Qed.
Global Instance by_project_desc_trans : Transitive by_project_desc.
Proof. intros a b c Hab Hbc. by eapply sql_le_trans. Qed.
Global Instance by_package_desc_total : Total by_package_desc.
Proof. intros a b. apply sql_le_total. Qed.
Global Instance by_package_desc_trans : Transitive by_package_desc.
Proof. intros a b c Hab Hbc. by eapply sql_le_trans. Qed.

(** [ORDER BY ... LIMIT k]: the rows kept are the first [k] of the order
    (all rows when there are fewer), they are sorted, and every row left
    out may stand after every row kept. *)
Lemma order_by_limit {A} (R : relation A) `{∀ x y, Decision (R x y)}
    `{!Total R} `{!Transitive R} (k : nat) (l : list A) :
  length (take k (merge_sort R l)) = min k (length l)
  ∧ l ≡ₚ take k (merge_sort R l) ++ drop k (merge_sort R l)
  ∧ StronglySorted R (take k (merge_sort R l))
  ∧ ∀ x y, x ∈ take k (merge_sort R l) → y ∈ drop k (merge_sort R l) → R x y.
Proof.
  pose proof (StronglySorted_merge_sort R l) as Hs.
  rewrite <- (take_drop k (merge_sort R l)) in Hs.
  split; [by rewrite length_take, merge_sort_Permutation|].
  split; [by rewrite take_drop, merge_sort_Permutation|].
  split; [by eapply StronglySorted_app_1_l|].
  intros x y Hx Hy. by eapply StronglySorted_app_1_elem_of.
Qed.

Lemma sql_in_ready_placed x :
  sql_true (sql_in x ["Ready"; "Placed"])
  ↔ sql_true (sql_or (sql_eq x (Some "Ready")) (sql_eq x (Some "Placed"))).
Proof.
  unfold sql_in, sql_true. simpl.
  destruct (sql_eq x (Some "Ready")) as [[]|], (sql_eq x (Some "Placed")) as [[]|]; done.
Qed.

Lemma sql_or_true a b : sql_true (sql_or a b) ↔ sql_true a ∨ sql_true b.
Proof.
  unfold sql_true. destruct a as [[]|], b as [[]|]; simpl;
    intuition (auto; discriminate).
Qed.

(** X11: "Students with High Mock Interview Scores and Placement Status" puts
    no bound on the score: it lists exactly the rows of "Students Ready
    for Placement" (status [Ready] or [Placed], whatever the score),
    sorted by mock interview score, highest first. *)
Theorem high_mock_lists_the_ready d :
  high_mock_with_status d ≡ₚ ready_for_placement d
  ∧ StronglySorted
      (λ r r', sql_le (Status.mock_interview_score r') (Status.mock_interview_score r))
      (high_mock_with_status d)
  ∧ ∀ r, r ∈ high_mock_with_status d →
      Status.Placement_status r = Some "Ready" ∨ Status.Placement_status r = Some "Placed".
Proof.
  unfold high_mock_with_status, ready_for_placement. split; [|split].
  - rewrite merge_sort_Permutation.
    by rewrite (list_filter_iff _ _ _ (λ j, sql_in_ready_placed _)).
  - eapply StronglySorted_fmap; [|apply (StronglySorted_merge_sort _)].
    intros a b Hab. exact Hab.
  - intros r (j & -> & Hj)%list_elem_of_fmap.
    rewrite merge_sort_Permutation in Hj.
    apply list_elem_of_filter in Hj as [Hj _].
    apply sql_in_ready_placed, sql_or_true in Hj as [Hj|Hj];
      apply sql_eq_true in Hj as (v & Hv & [= <-]); auto.
Qed.

Lemma elem_of_students_placements d s pl :
  (s, pl) ∈ students_placements d ↔
    s ∈ students d ∧ pl ∈ placements d
    ∧ ∃ id : Z, Students.student_id s = Some id ∧ Placements.student_id pl = Some id.
Proof.
  unfold students_placements. split.
  - intros Hj.
    apply list_elem_of_bind in Hj as (s' & Hj & Hs).
    apply list_elem_of_bind in Hj as (pl' & Hj & [Hpl Hpl']%list_elem_of_filter).
    apply list_elem_of_singleton in Hj as [= -> ->].
    apply sql_eq_true in Hpl as (id & ? & ?). eauto 6.
  - intros (Hs & Hpl & id & Es & Epl).
    apply list_elem_of_bind. exists s. split; [|done].
    apply list_elem_of_bind. exists pl. split; [by apply list_elem_of_singleton|].
    apply list_elem_of_filter. split; [|done]. apply sql_eq_true. eauto.
Qed.

(** X12: With the internship checkbox ticked, every student the filter finds
    is listed, by name and batch, in the report "Students with
    Internship Completed". *)
Theorem eligible_listed_with_internship c d r :
  required_internship c = true →
  r ∈ eligible_students c d →
  (Eligible.name r, Eligible.course_batch r) ∈ internship_completed d.
Proof.
  intros Hreq (j & -> & Hj & Hw)%elem_of_eligible_students.
  apply where_conjuncts_true in Hw as (_ & _ & Hint).
  destruct Hj as (Hs & _ & _ & Hpl & id & Es & _ & _ & Epl).
  unfold internship_completed. apply list_elem_of_fmap.
  exists (S j, PL j). split; [done|].
  apply list_elem_of_filter. split.
  - apply sql_eq_true. exists "yes". split; [by apply Hint|done].
  - apply elem_of_students_placements. eauto 6.
Qed.

Lemma eligible_listed_with_internship_witness :
  (Eligible.name sample_row_1, Eligible.course_batch sample_row_1)
  ∈ internship_completed sample_dataset.
Proof.
  apply (eligible_listed_with_internship default_criteria sample_dataset sample_row_1).
  - reflexivity.
  - rewrite eligible_students_sample. apply list_elem_of_In. simpl. tauto.
Defined.

(** X13: "Top 5 Students by Latest Project Score" returns five rows, or all
    of them when fewer students have a programming row; they are sorted
    by score, highest first, and no row left out has a higher score than
    a row shown (a NULL score counts as lowest). *)
Theorem top_5_by_project_is_top d :
  length (top_5_by_project d) = min 5 (length (students_programming d))
  ∧ StronglySorted (λ r r', sql_le r'.2 r.2) (top_5_by_project d)
  ∧ ∃ rest,
      ((λ j, (Students.name j.1, Programming.latest_project_score j.2))
         <$> students_programming d) ≡ₚ top_5_by_project d ++ rest
      ∧ ∀ r x, r ∈ top_5_by_project d → x ∈ rest → sql_le x.2 r.2.
Proof.
  unfold top_5_by_project.
  destruct (order_by_limit by_project_desc 5 (students_programming d))
    as (Hlen & Hperm & Hsorted & Htop).
  split; [by rewrite length_fmap|]. split.
  - eapply StronglySorted_fmap; [|exact Hsorted]. intros a b Hab. exact Hab.
  - exists ((λ j, (Students.name j.1, Programming.latest_project_score j.2))
              <$> drop 5 (merge_sort by_project_desc (students_programming d))).
    split; [by rewrite <- fmap_app, <- Hperm|].
    intros r x (a & -> & Ha)%list_elem_of_fmap (b & -> & Hb)%list_elem_of_fmap.
    exact (Htop a b Ha Hb).
Qed.

(** X14: "Student with Highest Placement Package" returns no row when no
    student is placed, and otherwise exactly one row, of a placed
    student whose package no other placed student's package exceeds. *)
Theorem highest_package_is_highest d :
  (placed d = [] → highest_package d = [])
  ∧ (placed d ≠ [] →
     ∃ j, j ∈ placed d ∧ highest_package d = [package_row j]
       ∧ ∀ j', j' ∈ placed d →
           sql_le (Placements.placement_package j'.2) (Placements.placement_package j.2)).
Proof.
  unfold highest_package.
  destruct (order_by_limit by_package_desc 1 (placed d))
    as (Hlen & Hperm & _ & Htop).
  split.
  - intros Hnil. rewrite Hnil. reflexivity.
  - intros Hne.
    destruct (take 1 (merge_sort by_package_desc (placed d))) as [|j [|??]] eqn:Htake.
    + destruct (placed d); [done|]. simpl in Hlen. lia.
    + exists j. split; [rewrite Hperm; left|]. split; [done|].
      intros j' Hj'. rewrite Hperm in Hj'.
      apply elem_of_cons in Hj' as [->|Hj'].
      * unfold sql_le. by destruct (Placements.placement_package j.2).
      * apply (Htop j j'); [left|done].
    + pose proof (Nat.le_min_l 1 (length (placed d))). cbn [length] in Hlen. lia.
Qed.


(** ** Grouped counts *)

Global Instance by_count_desc_total {K} : Total (@by_count_desc K).
Proof. intros a b. unfold by_count_desc. lia. Qed.
Global Instance by_count_desc_trans {K} : Transitive (@by_count_desc K).
Proof. intros a b c. unfold by_count_desc. lia. Qed.

Section GroupCount.
Context {A K : Type} `{EqDecision K}.
Variable key : A → K.
Variable counted : A → bool.

Let cnt (k : K) (l : list A) : nat :=
  length (filter (λ x, key x = k ∧ counted x = true) l).

Lemma cnt_absent k l : k ∉ key <$> l → cnt k l = 0%nat.
Proof.
  intros Hk. unfold cnt.
  induction l as [|x l IH]; [done|].
  rewrite fmap_cons, not_elem_of_cons in Hk. destruct Hk as [Hx Hl].
  rewrite filter_cons, decide_False by (intros [? _]; congruence). by apply IH.
Qed.

Lemma sum_cnt_cons (G : list K) x l :
  NoDup G → key x ∈ G →
  sum_list_with (λ k, cnt k (x :: l)) G
  = ((if counted x then 1 else 0) + sum_list_with (λ k, cnt k l) G)%nat.
Proof.
  unfold cnt. induction G as [|g G IH]; intros Hnd Hin.
  - by apply elem_of_nil in Hin.
  - apply NoDup_cons in Hnd as [Hg Hnd]. cbn [sum_list_with].
    rewrite filter_cons. destruct (decide (key x = g)) as [<-|Hne].
    + assert (Hrest : sum_list_with
                (λ k, length (filter (λ y, key y = k ∧ counted y = true) (x :: l))) G
              = sum_list_with
                  (λ k, length (filter (λ y, key y = k ∧ counted y = true) l)) G).
      { clear IH Hin Hnd. induction G as [|g' G IHG]; [done|].
        apply not_elem_of_cons in Hg as [Hg' Hg]. cbn [sum_list_with].
        rewrite filter_cons, decide_False by (intros [? _]; congruence).
        by rewrite IHG. }
      rewrite Hrest. destruct (counted x) eqn:Hc.
      * rewrite decide_True by done. simpl. lia.
      * rewrite decide_False by (intros [_ ?]; congruence). lia.
    + rewrite decide_False by (intros [? _]; congruence).
      apply elem_of_cons in Hin as [?|Hin]; [congruence|].
      rewrite (IH Hnd Hin). lia.
Qed.

(** The counts of the groups add up to the number of counted rows. *)
Lemma group_count_sum l :
  sum_list_with snd (group_count key counted l)
  = length (filter (λ x, counted x = true) l).
Proof.
  unfold group_count.
  assert (Hsum : ∀ G : list K,
    sum_list_with snd
      ((λ k, (k, length (filter (λ x, key x = k ∧ counted x = true) l))) <$> G)
    = sum_list_with (λ k, cnt k l) G).
  { intros G. induction G as [|g G IH]; [done|]. csimpl. by rewrite IH. }
  rewrite Hsum. clear Hsum.
  induction l as [|x l IH]; [done|].
  rewrite fmap_cons. cbn [remove_dups].
  rewrite filter_cons.
  assert (Hl : sum_list_with (λ k, cnt k (x :: l)) (remove_dups (key x :: (key <$> l)))
               = ((if counted x then 1 else 0)
                  + sum_list_with (λ k, cnt k l) (remove_dups (key <$> l)))%nat).
  { rewrite sum_cnt_cons;
      [|apply NoDup_remove_dups|apply elem_of_remove_dups; left].
    f_equal. cbn [remove_dups].
    destruct (decide_rel elem_of (key x) (key <$> l)) as [Hin|Hin]; [done|].
    cbn [sum_list_with]. by rewrite (cnt_absent _ _ Hin). }
  cbn [remove_dups] in Hl. rewrite Hl, IH.
  destruct (counted x); [by rewrite decide_True|by rewrite decide_False].
Qed.

Lemma group_count_keys l : (group_count key counted l).*1 = remove_dups (key <$> l).
Proof.
  unfold group_count. rewrite <- list_fmap_compose.
  induction (remove_dups (key <$> l)) as [|g G IH]; [done|]. csimpl. by rewrite IH.
Qed.
End GroupCount.


Lemma elem_of_group_count {A K} `{EqDecision K} (key : A → K) counted (l : list A) k n :
  (k, n) ∈ group_count key counted l →
  k ∈ key <$> l ∧ n = length (filter (λ x, key x = k ∧ counted x = true) l).
Proof.
  unfold group_count. intros (g & [= -> ->] & Hg)%list_elem_of_fmap.
  rewrite elem_of_remove_dups in Hg. by split.
Qed.

Lemma filter_all {A} (P : A → Prop) `{∀ x, Decision (P x)} (l : list A) :
  (∀ x, P x) → filter P l = l.
Proof.
  intros HP. induction l as [|x l IH]; [done|].
  by rewrite filter_cons, decide_True, IH.
Qed.

(** X15: "Students by Course Batch" accounts for every student exactly once:
    its counts add up to the number "Total Students" reports, every
    batch (NULL included) has one row with a count of at least one, and
    the rows are sorted by count, largest first. *)
Theorem batch_counts_add_up d :
  sum_list_with snd (students_by_course_batch d) = total_students d
  ∧ NoDup (students_by_course_batch d).*1
  ∧ (∀ s, s ∈ students d →
       Students.course_batch s ∈ (students_by_course_batch d).*1)
  ∧ (∀ b n, (b, n) ∈ students_by_course_batch d → (1 ≤ n)%nat)
  ∧ StronglySorted (λ r r', (r'.2 ≤ r.2)%nat) (students_by_course_batch d).
Proof.
  unfold students_by_course_batch, total_students. split; [|split; [|split; [|split]]].
  - rewrite merge_sort_Permutation, group_count_sum. by rewrite filter_all.
  - rewrite merge_sort_Permutation, group_count_keys. apply NoDup_remove_dups.
  - intros s Hs. rewrite merge_sort_Permutation, group_count_keys.
    apply elem_of_remove_dups. by apply list_elem_of_fmap_2.
  - intros b n Hbn. rewrite merge_sort_Permutation in Hbn.
    apply elem_of_group_count in Hbn as [(s & -> & Hs)%list_elem_of_fmap ->].
    assert (Hin : s ∈ filter (λ x, Students.course_batch x = Students.course_batch s
                                   ∧ true = true) (students d))
      by (by apply list_elem_of_filter).
    destruct (filter _ (students d)); [by apply elem_of_nil in Hin|simpl; lia].
  - apply (StronglySorted_merge_sort _).
Qed.

(** X16: "Count Students by City" counts identifiers, not rows: its counts
    add up to the number of students whose [student_id] is not NULL;
    every city of the table (NULL included) has exactly one row, also
    when none of its students has an identifier; the rows are sorted by
    count, largest first. *)
Theorem city_counts_add_up d :
  sum_list_with snd (count_students_by_city d)
    = length (filter (λ s, is_Some (Students.student_id s)) (students d))
  ∧ (sum_list_with snd (count_students_by_city d) ≤ total_students d)%nat
  ∧ NoDup (count_students_by_city d).*1
  ∧ (∀ s, s ∈ students d → Students.city s ∈ (count_students_by_city d).*1)
  ∧ StronglySorted (λ r r', (r'.2 ≤ r.2)%nat) (count_students_by_city d).
Proof.
  unfold count_students_by_city, total_students.
  assert (Hsum : sum_list_with snd
      (merge_sort by_count_desc
         (group_count Students.city
            (λ s, bool_decide (is_Some (Students.student_id s))) (students d)))
    = length (filter (λ s, is_Some (Students.student_id s)) (students d))).
  { rewrite merge_sort_Permutation, group_count_sum. f_equal.
    apply list_filter_iff. intros s. apply bool_decide_eq_true. }
  split; [exact Hsum|]. split; [|split; [|split]].
  - rewrite Hsum. apply length_filter.
  - rewrite merge_sort_Permutation, group_count_keys. apply NoDup_remove_dups.
  - intros s Hs. rewrite merge_sort_Permutation, group_count_keys.
    apply elem_of_remove_dups. by apply list_elem_of_fmap_2.
  - apply (StronglySorted_merge_sort _).
Qed.

(** ** The pages without a connection *)

Lemma bind_stopped {Conn A B} (m : App Conn A) (k : A → App Conn B) w w' :
  m w = Stopped w' → (m ≫= k) w = Stopped w'.
Proof. intros H. unfold mbind, App_bind. by rewrite H. Qed.

(** X17: When the connection is not cached and [sqlite3.connect] raises
    [sqlite3.Error], both pages halt at their query: the page shows the
    connection error last, and neither a table nor a "no results" notice
    follows. *)
Theorem pages_halt_without_connection {Conn} (connect : string → Try Conn)
    (read : string → Conn → option (list Cell) → Try DataFrame) msg :
  connect DB_NAME = Raise (Sqlite3Error msg) →
  (∀ ui shown,
     filter_students connect read ui {| conn := None; page := shown |}
     = Stopped {| conn := None;
                  page := shown ++
                    [StMarkdown "---"; StSubheader "Eligible Candidates";
                     StError ("Error connecting to database: " +:+ msg)] |})
  ∧ (∀ name shown, name ∈ keys SQL_QUERIES →
       ∃ q, dict_get SQL_QUERIES name = Some q
         ∧ view_insights connect read name {| conn := None; page := shown |}
           = Stopped {| conn := None;
                        page := shown ++
                          [StCode q;
                           StError ("Error connecting to database: " +:+ msg)] |}).
Proof.
  intros Hopen. split.
  - intros ui shown. unfold filter_students. cbv zeta.
    rewrite bind_show. cbn [conn page]. rewrite bind_show. cbn [conn page].
    erewrite bind_stopped.
    2:{ by apply (execute_query_stops connect read db_manager _ None _ msg). }
    cbn [conn page]. by rewrite <- !app_assoc.
  - intros name shown Hin. destruct (dict_get_keys _ _ Hin) as [q Hq].
    exists q. split; [done|]. unfold view_insights. rewrite Hq.
    rewrite bool_decide_eq_false_2 by (intros ->; by apply keys_not_blank).
    rewrite bind_show. cbn [conn page]. erewrite bind_stopped.
    2:{ by apply (execute_query_stops connect read db_manager _ None _ msg). }
    cbn [conn page]. by rewrite <- !app_assoc.
Qed.

Lemma pages_halt_without_connection_witness :
  filter_students unreachable_store (λ _ _ _, Value empty_frame) untouched
    {| conn := None; page := [] |}
  = Stopped {| conn := None;
               page := [] ++
                 [StMarkdown "---"; StSubheader "Eligible Candidates";
                  StError ("Error connecting to database: "
                           +:+ "unable to open database file")] |}.
Proof.
  apply (proj1 (pages_halt_without_connection unreachable_store
                  (λ _ _ _, Value empty_frame) "unable to open database file"
                  eq_refl)).
Defined.
